(** * seafileapi.repo: the repository handle of python-seafile

    A shallow embedding of [src/seafileapi/repo.py] (classes [Repo] and
    [RepoRevision]) and the properties its specification states about it.

    Conventions.
    - A Python [str] is a Rocq [string] holding its UTF-8 bytes. Every string
      operation the module performs ([startswith], [split('/')], [+],
      matching a quote or a newline, percent-encoding) acts the same way on
      the UTF-8 bytes as on the code points.
    - Decoded JSON is [PyVal]. Numbers are integers: the fields the module
      reads (ids, names, paths, sizes, flags) are never fractional.
    - A method that talks to the transport is a [Prog]: a tree whose nodes are
      the calls [client.get / client.post / client.delete] and whose leaves
      are a returned value or a raised exception. [run] executes a [Prog]
      against a service and records the requests in order. *)

From Stdlib Require Import String Ascii List ZArith Lia Bool.
From Stdlib.Strings Require Import Byte.
Import ListNotations.
Open Scope string_scope.

Set Warnings "-register-all".

(** ** Python values and exceptions *)

Inductive PyVal : Type :=
| PyNone
| PyBool (b : bool)
| PyInt (z : Z)
| PyStr (s : string)
| PyList (l : list PyVal)
| PyDict (d : list (string * PyVal)).

Inductive PyExn : Type :=
| AssertionError
| ValueError (msg : string)
| KeyError (key : PyVal)
| IndexError
| TypeError
| AttributeError (attr : string)
| ClientHttpError (code : Z)
| DoesNotExist (msg : string)
| OtherError (name : string).

Inductive Result (A : Type) : Type :=
| Ok (a : A)
| Err (e : PyExn).
Arguments Ok {A} a.
Arguments Err {A} e.

(** The error taxonomy of the specification, read onto the exceptions the
    module raises: a failed [assert] and [ValueError] are invalid arguments,
    a missing key is a malformed response, [DoesNotExist] is "not found",
    and what the transport raises is a transport failure. *)
Inductive ErrorKind : Type :=
| InvalidArgument
| NotFound
| MalformedResponse
| TransportFailure
| Unclassified.

Definition error_kind (e : PyExn) : ErrorKind :=
  match e with
  | AssertionError => InvalidArgument
  | ValueError _ => InvalidArgument
  | KeyError _ => MalformedResponse
  | DoesNotExist _ => NotFound
  | ClientHttpError _ => TransportFailure
  | OtherError _ => TransportFailure
  | IndexError | TypeError | AttributeError _ => Unclassified
  end.

(** ** Strings *)

Definition startswith (prefix s : string) : bool := String.prefix prefix s.

Fixpoint last_char (s : string) : option ascii :=
  match s with
  | EmptyString => None
  | String c EmptyString => Some c
  | String _ s' => last_char s'
  end.

Definition ends_with_sep (s : string) : bool :=
  match last_char s with
  | Some c => Ascii.eqb c "/"
  | None => false
  end.

(** [str.split(sep)] for a one-character separator. *)
Fixpoint split (sep : ascii) (s : string) : list string :=
  match s with
  | EmptyString => [EmptyString]
  | String c s' =>
      if Ascii.eqb c sep then EmptyString :: split sep s'
      else match split sep s' with
           | h :: t => String c h :: t
           | [] => [String c EmptyString]
           end
  end.

Fixpoint contains_char (c : ascii) (s : string) : bool :=
  match s with
  | EmptyString => false
  | String c' s' => Ascii.eqb c' c || contains_char c s'
  end.

(** [posixpath.join(a, b)] on two [str] arguments. *)
Definition posixpath_join (a b : string) : string :=
  if startswith "/" b then b
  else if (String.eqb a EmptyString) || ends_with_sep a then a ++ b
  else a ++ "/" ++ b.

(** *** [urllib.parse.urlencode] on a dict of [str] to [str]

    Every byte outside the always-safe set is written [%XX] in upper-case
    hexadecimal ([quote_plus] with [safe=''], Python 3.7 and later), except
    the space, which becomes [+]. *)
Definition in_range (lo hi n : nat) : bool := (lo <=? n)%nat && (n <=? hi)%nat.

Definition always_safe (c : ascii) : bool :=
  let n := nat_of_ascii c in
  in_range 65 90 n || in_range 97 122 n || in_range 48 57 n
  || Ascii.eqb c "_" || Ascii.eqb c "." || Ascii.eqb c "-" || Ascii.eqb c "~".

Definition hex_digit (n : nat) : ascii :=
  nth n (list_ascii_of_string "0123456789ABCDEF") "0"%char.

Definition quote_byte (c : ascii) : string :=
  if always_safe c then String c EmptyString
  else if Ascii.eqb c " " then "+"
  else let n := nat_of_ascii c in
       String "%" (String (hex_digit (n / 16)) (String (hex_digit (n mod 16)) EmptyString)).

Fixpoint quote_plus (s : string) : string :=
  match s with
  | EmptyString => EmptyString
  | String c s' => quote_byte c ++ quote_plus s'
  end.

Definition urlencode (query : list (string * string)) : string :=
  String.concat "&" (map (fun kv => quote_plus (fst kv) ++ "=" ++ quote_plus (snd kv)) query).

Definition dquote : ascii := "034"%char.

(** *** [re.match(pattern, text).group(1)] in [_get_upload_link]

    The pattern is a double quote, a greedy group of any characters, and a
    double quote. The match is anchored at the start and the dot matches
    every character but the newline, so group 1 runs from after the opening
    quote to the last quote on the first line. [None] is "no match". *)
Fixpoint first_line (s : string) : string :=
  match s with
  | EmptyString => EmptyString
  | String c s' => if Ascii.eqb c "010" then EmptyString else String c (first_line s')
  end.

Fixpoint upto_last_quote (s : string) : option string :=
  match s with
  | EmptyString => None
  | String c s' =>
      match upto_last_quote s' with
      | Some g => Some (String c g)
      | None => if Ascii.eqb c dquote then Some EmptyString else None
      end
  end.

Definition re_match_quoted (text : string) : option string :=
  match text with
  | EmptyString => None
  | String c rest =>
      if Ascii.eqb c dquote then upto_last_quote (first_line rest) else None
  end.

(** The number of occurrences of a character. *)
Fixpoint count_char (c : ascii) (s : string) : nat :=
  match s with
  | EmptyString => 0
  | String c' s' => (if Ascii.eqb c' c then 1 else 0) + count_char c s'
  end.

(** The inverse of [quote_plus]: [urllib.parse.unquote_plus] on bytes. It is
    not called by the module; the encoding is shown to lose nothing by
    decoding it. *)
Definition hex_value (c : ascii) : nat :=
  let n := nat_of_ascii c in
  if in_range 48 57 n then n - 48
  else if in_range 65 70 n then n - 55
  else if in_range 97 102 n then n - 87
  else 0.

Fixpoint unquote_plus (s : string) : string :=
  match s with
  | EmptyString => EmptyString
  | String c rest =>
      if Ascii.eqb c "%" then
        match rest with
        | String h (String l rest') =>
            String (ascii_of_nat (16 * hex_value h + hex_value l)) (unquote_plus rest')
        | _ => String c (unquote_plus rest)
        end
      else String (if Ascii.eqb c "+" then " "%char else c) (unquote_plus rest)
  end.

(** The characters a percent-encoded string is made of. *)
Definition query_char (c : ascii) : bool :=
  always_safe c || Ascii.eqb c "%" || Ascii.eqb c "+".

Fixpoint all_chars (p : ascii -> bool) (s : string) : bool :=
  match s with
  | EmptyString => true
  | String c s' => p c && all_chars p s'
  end.

(** ** Dynamic operations on decoded JSON *)

Fixpoint assoc {V : Type} (k : string) (d : list (string * V)) : option V :=
  match d with
  | [] => None
  | (k', v) :: d' => if String.eqb k k' then Some v else assoc k d'
  end.

(** The first code point of a non-empty [str]: its first byte and the
    continuation bytes (10xxxxxx) that follow it. *)
Fixpoint continuation_bytes (s : string) : string :=
  match s with
  | EmptyString => EmptyString
  | String c s' =>
      if in_range 128 191 (nat_of_ascii c) then String c (continuation_bytes s')
      else EmptyString
  end.

(** [v[key]] for a [str] key. *)
Definition getitem_str (v : PyVal) (key : string) : Result PyVal :=
  match v with
  | PyDict d =>
      match assoc key d with
      | Some x => Ok x
      | None => Err (KeyError (PyStr key))
      end
  | _ => Err TypeError
  end.

(** [v[0]]. The keys of a decoded JSON object are strings, so [0] is never
    one of them. *)
Definition getitem_0 (v : PyVal) : Result PyVal :=
  match v with
  | PyList (x :: _) => Ok x
  | PyList [] => Err IndexError
  | PyStr (String c s') => Ok (PyStr (String c (continuation_bytes s')))
  | PyStr EmptyString => Err IndexError
  | PyDict _ => Err (KeyError (PyInt 0))
  | PyNone | PyBool _ | PyInt _ => Err TypeError
  end.

(** [v.get(key)]: only a dict has the method. *)
Definition py_get (v : PyVal) (key : string) : Result PyVal :=
  match v with
  | PyDict d =>
      match assoc key d with
      | Some x => Ok x
      | None => Ok PyNone
      end
  | _ => Err (AttributeError "get")
  end.

Definition truthy (v : PyVal) : bool :=
  match v with
  | PyNone => false
  | PyBool b => b
  | PyInt z => negb (Z.eqb z 0)
  | PyStr s => negb (String.eqb s EmptyString)
  | PyList l => match l with [] => false | _ => true end
  | PyDict d => match d with [] => false | _ => true end
  end.

(** [needle in v] for a one-character [str] needle: a substring of a [str],
    an element of a list, a key of a dict; the other values are not
    iterable. *)
Definition py_contains (needle : ascii) (v : PyVal) : Result bool :=
  match v with
  | PyStr s => Ok (contains_char needle s)
  | PyList l =>
      Ok (existsb (fun x => match x with
                            | PyStr s => String.eqb s (String needle EmptyString)
                            | _ => false
                            end) l)
  | PyDict d =>
      Ok (match assoc (String needle EmptyString) d with
          | Some _ => true
          | None => false
          end)
  | PyNone | PyBool _ | PyInt _ => Err TypeError
  end.

(** ** The transport collaborator *)

(** What is passed as [fileobj]: a text string, a byte string or a stream. *)
Inductive Stream : Type :=
| BytesIO (initial : list byte)
| OpenFile (handle : nat).

Inductive FileObj : Type :=
| FText (s : string)
| FBytes (b : list byte)
| FStream (s : Stream).

(** The [files] dict of the upload. *)
Record UploadFiles : Type := mkUploadFiles {
  file : string * FileObj;
  parent_dir : string;
  relative_path : string
}.

Inductive Request : Type :=
| GET (url : string)
| POST (url : string) (files : UploadFiles)
| DELETE (url : string).

(** A response exposes a status, headers, its text and a JSON accessor that
    may itself raise. *)
Record Response : Type := mkResponse {
  status_code : Z;
  headers : string -> option string;
  text : string;
  json : Result PyVal
}.

(** Clients are told apart by a handle. *)
Definition Client : Type := nat.

Definition Event : Type := (Client * Request)%type.

Inductive Prog (A : Type) : Type :=
| Ret (a : A)
| Raise (e : PyExn)
| Call (c : Client) (rq : Request) (k : Result Response -> Prog A).
Arguments Ret {A} a.
Arguments Raise {A} e.
Arguments Call {A} c rq k.

Fixpoint bind {A B : Type} (p : Prog A) (f : A -> Prog B) : Prog B :=
  match p with
  | Ret a => f a
  | Raise e => Raise e
  | Call c rq k => Call c rq (fun o => bind (k o) f)
  end.

Notation "x <- p ;; q" := (bind p (fun x => q))
  (at level 61, p at next level, right associativity).

Definition lift {A : Type} (r : Result A) : Prog A :=
  match r with
  | Ok a => Ret a
  | Err e => Raise e
  end.

(** [try: p except Exception as e: h e] *)
Fixpoint try_except {A : Type} (p : Prog A) (h : PyExn -> Prog A) : Prog A :=
  match p with
  | Ret a => Ret a
  | Raise e => h e
  | Call c rq k => Call c rq (fun o => try_except (k o) h)
  end.

(** The service answers a request, knowing the requests made before it, with
    a response or with the exception the client raises. *)
Definition Service : Type := list Event -> Event -> Result Response.

Fixpoint run {A : Type} (svc : Service) (p : Prog A) (tr : list Event)
  : Result A * list Event :=
  match p with
  | Ret a => (Ok a, tr)
  | Raise e => (Err e, tr)
  | Call c rq k => run svc (k (svc tr (c, rq))) (tr ++ [(c, rq)])
  end.

Definition first_request {A : Type} (p : Prog A) : option Event :=
  match p with
  | Call c rq _ => Some (c, rq)
  | _ => None
  end.

Definition map_outcome {A B : Type} (f : A -> B) (r : Result A * list Event)
  : Result B * list Event :=
  match r with
  | (Ok a, tr) => (Ok (f a), tr)
  | (Err e, tr) => (Err e, tr)
  end.

Definition client_get (c : Client) (url : string) : Prog Response :=
  Call c (GET url) lift.

Definition client_post (c : Client) (url : string) (files : UploadFiles) : Prog Response :=
  Call c (POST url files) lift.

Definition client_delete (c : Client) (url : string) : Prog Response :=
  Call c (DELETE url) lift.

(** Modelled from the spec: [seafileapi.utils.raise_does_not_exist] is not
    part of the module. A "not found" status reaches the wrapped method as
    the client's [ClientHttpError 404]; the decorator turns it into
    [DoesNotExist msg] and lets every other outcome through. *)
Definition raise_does_not_exist {A : Type} (msg : string) (func : Prog A) : Prog A :=
  try_except func
    (fun e => match e with
              | ClientHttpError code =>
                  if Z.eqb code 404 then Raise (DoesNotExist msg) else Raise e
              | _ => Raise e
              end).

(** ** class Repo *)

Record Repo : Type := mkRepo {
  client : Client;
  id : PyVal;
  name : PyVal;
  encrypted : PyVal;
  owner : PyVal;
  perm : PyVal
}.

(** [Repo.__init__(self, client, repo_id, repo_name, encrypted, owner, perm)] *)
Definition Repo_init (client : Client) (repo_id repo_name encrypted owner perm : PyVal) : Repo :=
  {| client := client; id := repo_id; name := repo_name;
     encrypted := encrypted; owner := owner; perm := perm |}.

Definition required_fields : list string :=
  ["id"; "name"; "encrypted"; "permission"; "owner"].

Definition from_json (client : Client) (repo_json : PyVal) : Prog Repo :=
  repo_id <- lift (getitem_str repo_json "id") ;;
  repo_name <- lift (getitem_str repo_json "name") ;;
  encrypted <- lift (getitem_str repo_json "encrypted") ;;
  perm <- lift (getitem_str repo_json "permission") ;;
  owner <- lift (getitem_str repo_json "owner") ;;
  Ret (Repo_init client repo_id repo_name encrypted owner perm).

(** ['w' not in self.perm] *)
Definition is_readonly (self : Repo) : Result bool :=
  match py_contains "w" (perm self) with
  | Ok b => Ok (negb b)
  | Err e => Err e
  end.

(** The file handle of [seafileapi.files], built from its four arguments. *)
Record SeafFile : Type := mkSeafFile {
  file_repo : Repo;
  file_path : string;
  file_id : PyVal;
  file_size : PyVal
}.

(** The four placeholders. Each takes the handle and gives it back with its
    result, so that a change of an attribute would show. *)
Definition list_history (self : Repo) : Prog (Repo * PyVal) := Ret (self, PyNone).

Definition update (self : Repo) (name : PyVal) : Prog (Repo * PyVal) := Ret (self, PyNone).

Definition get_settings (self : Repo) : Prog (Repo * PyVal) := Ret (self, PyNone).

Definition restore (self : Repo) (commit_id : PyVal) : Prog (Repo * PyVal) := Ret (self, PyNone).

Section Repository.

(** What the module takes from outside: [repr] of a value that is not a
    [str] (used by ['%s' %] and f-strings), [validators.url], and the
    directory handle of [seafileapi.files] with its [load_entries]. *)
Variable py_repr : PyVal -> string.
Variable validators_url : string -> bool.
Variable Entries : Type.

Record SeafDir : Type := mkSeafDir {
  dir_repo : Repo;
  dir_path : string;
  dir_id : string;
  dir_entries : option Entries
}.

Variable load_entries : SeafDir -> PyVal -> Prog SeafDir.

Definition py_str (v : PyVal) : string :=
  match v with
  | PyStr s => s
  | _ => py_repr v
  end.

(** The URLs the methods format. *)
Definition file_detail_url (self : Repo) : string :=
  "/api2/repos/" ++ py_str (id self) ++ "/file/detail/".

Definition dir_url (self : Repo) : string :=
  "/api2/repos/" ++ py_str (id self) ++ "/dir/".

Definition upload_link_url (self : Repo) : string :=
  "/api2/repos/" ++ py_str (id self) ++ "/upload-link/".

Definition share_link_url (token : string) : string :=
  "/api/v2.1/share-links/" ++ token ++ "/".

Definition file_query (path : string) : string :=
  "?" ++ urlencode [("p", path)].

Definition dir_query (path : string) : string :=
  if negb (String.eqb path "/") then "?" ++ urlencode [("p", path)] else EmptyString.

Definition get_file (self : Repo) (path : string) : Prog SeafFile :=
  raise_does_not_exist "The requested file does not exist"
    (if startswith "/" path then
       let url := file_detail_url self in
       let query := file_query path in
       resp <- client_get (client self) (url ++ query) ;;
       file_json <- lift (json resp) ;;
       fid <- lift (getitem_str file_json "id") ;;
       fsize <- lift (getitem_str file_json "size") ;;
       Ret (mkSeafFile self path fid fsize)
     else Raise AssertionError).

Definition headers_getitem (resp : Response) (key : string) : Result string :=
  match headers resp key with
  | Some v => Ok v
  | None => Err (KeyError (PyStr key))
  end.

Definition get_dir (self : Repo) (path : string) : Prog SeafDir :=
  raise_does_not_exist "The requested dir does not exist"
    (if startswith "/" path then
       let url := dir_url self in
       let query := dir_query path in
       resp <- client_get (client self) (url ++ query) ;;
       dir_id <- lift (headers_getitem resp "oid") ;;
       dir_json <- lift (json resp) ;;
       load_entries (mkSeafDir self path dir_id None) dir_json
     else Raise AssertionError).

(** [get_file] and [get_dir] on a path that came out of JSON: a value that
    is not a [str] has no [startswith]. *)
Definition get_file_dyn (self : Repo) (path : PyVal) : Prog SeafFile :=
  match path with
  | PyStr s => get_file self s
  | _ => raise_does_not_exist "The requested file does not exist"
           (Raise (AttributeError "startswith"))
  end.

Definition get_dir_dyn (self : Repo) (path : PyVal) : Prog SeafDir :=
  match path with
  | PyStr s => get_dir self s
  | _ => raise_does_not_exist "The requested dir does not exist"
           (Raise (AttributeError "startswith"))
  end.

Definition _get_upload_link (self : Repo) : Prog string :=
  let url := upload_link_url self in
  resp <- client_get (client self) url ;;
  match re_match_quoted (text resp) with
  | Some g => Ret g
  | None => Raise (AttributeError "group")
  end.

(** [isinstance(fileobj, str)] *)
Definition isinstance_str (fileobj : FileObj) : bool :=
  match fileobj with
  | FText _ => true
  | FBytes _ | FStream _ => false
  end.

(** [io.BytesIO(initial)] takes a byte string; anything else is a
    [TypeError]. *)
Definition io_BytesIO (initial : FileObj) : Result Stream :=
  match initial with
  | FBytes b => Ok (BytesIO b)
  | FText _ | FStream _ => Err TypeError
  end.

(** The first two lines of [upload_file]. *)
Definition wrap_fileobj (fileobj : FileObj) : Prog FileObj :=
  if isinstance_str fileobj then
    stream <- lift (io_BytesIO fileobj) ;; Ret (FStream stream)
  else Ret fileobj.

Definition upload_files (fileobj : FileObj) (filename filepath : string) : UploadFiles :=
  {| file := (filename, fileobj); parent_dir := "/"; relative_path := filepath |}.

Definition upload_file (self : Repo) (fileobj : FileObj) (filename filepath : string)
  : Prog SeafFile :=
  fileobj <- wrap_fileobj fileobj ;;
  link <- _get_upload_link self ;;
  let upload_url := link ++ "?ret-json=1" in
  let files := upload_files fileobj filename filepath in
  resp <- client_post (client self) upload_url files ;;
  json_response <- lift (json resp) ;;
  first <- lift (getitem_0 json_response) ;;
  fname <- lift (getitem_str first "name") ;;
  match fname with
  | PyStr n => get_file self (posixpath_join ("/" ++ filepath) n)
  | _ => Raise TypeError
  end.

Definition get_share_link_details (self : Repo) (token : string) : Prog PyVal :=
  let url := share_link_url token in
  resp <- client_get (client self) url ;;
  lift (json resp).

Inductive Element : Type :=
| EDir (d : SeafDir)
| EFile (f : SeafFile).

Definition get_element_by_share_link (self : Repo) (share_link : string) : Prog Element :=
  let splitted_link := split "/" share_link in
  if validators_url share_link && (5 <=? length splitted_link)%nat then
    let token := nth 4 splitted_link EmptyString in
    share_link_details <- get_share_link_details self token ;;
    path <- lift (py_get share_link_details "path") ;;
    is_dir <- lift (py_get share_link_details "is_dir") ;;
    if truthy is_dir
    then d <- get_dir_dyn self path ;; Ret (EDir d)
    else f <- get_file_dyn self path ;; Ret (EFile f)
  else Raise (ValueError "Invalid share link").

(** The last three lines of the accepting branch of
    [get_element_by_share_link], on the details already fetched. *)
Definition resolve_details (self : Repo) (share_link_details : PyVal) : Prog Element :=
  path <- lift (py_get share_link_details "path") ;;
  is_dir <- lift (py_get share_link_details "is_dir") ;;
  if truthy is_dir
  then d <- get_dir_dyn self path ;; Ret (EDir d)
  else f <- get_file_dyn self path ;; Ret (EFile f).

Definition delete (self : Repo) : Prog PyVal :=
  match id self with
  | PyStr s => _ <- client_delete (client self) ("/api2/repos/" ++ s) ;; Ret PyNone
  | _ => Raise TypeError
  end.

(** ** class RepoRevision *)

Record RepoRevision : Type := mkRepoRevision {
  rev_client : Client;
  repo : Repo;
  commit_id : PyVal
}.

(** Attribute lookup on a [Repo] object: the attributes [__init__] sets, then
    the methods of the class, in the order the class body defines them. *)
Inductive RepoMethod : Type :=
| m_init | m_from_json | m_is_readonly | m_get_file | m_get_dir
| m_upload_file | m_get_upload_link | m_get_share_link_details
| m_get_element_by_share_link | m_delete | m_list_history | m_update
| m_get_settings | m_restore.

Inductive Attr : Type :=
| InstanceAttr (name : string)
| BoundMethod (m : RepoMethod).

Definition Repo_instance_attrs : list string :=
  ["client"; "id"; "name"; "encrypted"; "owner"; "perm"].

Definition Repo_methods : list (string * RepoMethod) :=
  [("__init__", m_init); ("from_json", m_from_json);
   ("is_readonly", m_is_readonly); ("get_file", m_get_file);
   ("get_dir", m_get_dir); ("upload_file", m_upload_file);
   ("_get_upload_link", m_get_upload_link);
   ("get_share_link_details", m_get_share_link_details);
   ("get_element_by_share_link", m_get_element_by_share_link);
   ("delete", m_delete); ("list_history", m_list_history);
   ("update", m_update); ("get_settings", m_get_settings);
   ("restore", m_restore)].

Definition Repo_getattr (attr : string) : option Attr :=
  if existsb (String.eqb attr) Repo_instance_attrs then Some (InstanceAttr attr)
  else option_map BoundMethod (assoc attr Repo_methods).

Definition discard {A : Type} (p : Prog A) : Prog PyVal := _ <- p ;; Ret PyNone.

(** A bound method called with one positional argument, its result dropped.
    A method of another arity raises [TypeError]; a token that is not a
    [str] is formatted by the f-string. *)
Definition call_method1 (m : RepoMethod) (self : Repo) (arg : PyVal) : Prog PyVal :=
  match m with
  | m_get_file => discard (get_file_dyn self arg)
  | m_get_dir => discard (get_dir_dyn self arg)
  | m_get_share_link_details => discard (get_share_link_details self (py_str arg))
  | m_get_element_by_share_link =>
      match arg with
      | PyStr s => discard (get_element_by_share_link self s)
      | _ => Raise (AttributeError "split")
      end
  | m_update => discard (update self arg)
  | m_restore => discard (restore self arg)
  | m_init | m_from_json | m_is_readonly | m_upload_file | m_get_upload_link
  | m_delete | m_list_history | m_get_settings => Raise TypeError
  end.

(** [self.repo.revert(self.commit_id)] *)
Definition RepoRevision_restore (self : RepoRevision) : Prog PyVal :=
  match Repo_getattr "revert" with
  | Some (BoundMethod m) => call_method1 m (repo self) (commit_id self)
  | Some (InstanceAttr _) => Raise TypeError
  | None => Raise (AttributeError "revert")
  end.

(** * Properties *)

(** ** Running programs *)

Lemma run_bind {A B : Type} (svc : Service) (p : Prog A) (f : A -> Prog B) :
  forall tr,
    run svc (bind p f) tr =
    match run svc p tr with
    | (Ok a, tr') => run svc (f a) tr'
    | (Err e, tr') => (Err e, tr')
    end.
Proof.
  induction p as [a | e | c rq k IH]; intros tr; simpl.
  - reflexivity.
  - reflexivity.
  - apply IH.
Qed.

Lemma run_extends {A : Type} (svc : Service) (p : Prog A) :
  forall tr, exists more, snd (run svc p tr) = (tr ++ more)%list.
Proof.
  induction p as [a | e | c rq k IH]; intros tr; simpl.
  - exists []. symmetry. apply app_nil_r.
  - exists []. symmetry. apply app_nil_r.
  - destruct (IH (svc tr (c, rq)) (tr ++ [(c, rq)])%list) as [more Hmore].
    exists ((c, rq) :: more). rewrite Hmore, <- app_assoc. reflexivity.
Qed.

Lemma run_call {A : Type} (svc : Service) c rq (k : Result Response -> Prog A) tr :
  run svc (Call c rq k) tr = run svc (k (svc tr (c, rq))) (tr ++ [(c, rq)])%list.
Proof. reflexivity. Qed.

Lemma append_empty (s : string) : s ++ EmptyString = s.
Proof.
  induction s as [| c s IH]; simpl; [reflexivity | now rewrite IH].
Qed.

(** ** The path precondition *)

(** C1. For every path that does not start with a slash, [get_file] and
    [get_dir] raise the assertion failure, an invalid-argument error, and
    are programs without any call to the transport: run against any service
    they leave the list of requests as it was. *)
Theorem get_file_get_dir_reject_unrooted_path (self : Repo) (path : string)
    (Hpath : startswith "/" path = false) :
  get_file self path = Raise AssertionError
  /\ get_dir self path = Raise AssertionError
  /\ error_kind AssertionError = InvalidArgument
  /\ (forall svc tr,
        run svc (get_file self path) tr = (Err AssertionError, tr)
        /\ run svc (get_dir self path) tr = (Err AssertionError, tr)).
Proof.
  assert (Hf : get_file self path = Raise AssertionError).
  { unfold get_file. rewrite Hpath. reflexivity. }
  assert (Hd : get_dir self path = Raise AssertionError).
  { unfold get_dir. rewrite Hpath. reflexivity. }
  repeat split; try assumption; try reflexivity.
  - rewrite Hf. reflexivity.
  - rewrite Hd. reflexivity.
Qed.

(** ** Construction from JSON *)

Lemma from_json_cases (c : Client) (d : list (string * PyVal)) :
  (exists k, In k required_fields /\ assoc k d = None
             /\ from_json c (PyDict d) = Raise (KeyError (PyStr k)))
  \/ (exists i n e p o,
        assoc "id" d = Some i /\ assoc "name" d = Some n
        /\ assoc "encrypted" d = Some e /\ assoc "permission" d = Some p
        /\ assoc "owner" d = Some o
        /\ from_json c (PyDict d) = Ret (mkRepo c i n e o p)).
Proof.
  unfold from_json, getitem_str, required_fields.
  destruct (assoc "id" d) as [i |] eqn:Hi;
    [| left; exists "id"; simpl; auto 10].
  destruct (assoc "name" d) as [n |] eqn:Hn;
    [| left; exists "name"; simpl; auto 10].
  destruct (assoc "encrypted" d) as [e |] eqn:He;
    [| left; exists "encrypted"; simpl; auto 10].
  destruct (assoc "permission" d) as [p |] eqn:Hp;
    [| left; exists "permission"; simpl; auto 10].
  destruct (assoc "owner" d) as [o |] eqn:Ho;
    [| left; exists "owner"; simpl; auto 10].
  right. exists i, n, e, p, o. simpl. auto 10.
Qed.

(** C2. On a JSON object, [from_json] fails exactly when one of the five
    required fields is absent, and then with the missing-key error, a
    malformed response. When all five are present it returns, without a
    call to the transport, the handle whose [id], [name], [encrypted],
    [perm] and [owner] are the values of the fields [id], [name],
    [encrypted], [permission] and [owner]. *)
Theorem from_json_required_fields (c : Client) (d : list (string * PyVal)) :
  ((exists k, In k required_fields /\ assoc k d = None)
   <-> (exists e, from_json c (PyDict d) = Raise e))
  /\ (forall e, from_json c (PyDict d) = Raise e ->
        error_kind e = MalformedResponse
        /\ exists k, In k required_fields /\ e = KeyError (PyStr k))
  /\ first_request (from_json c (PyDict d)) = None
  /\ (forall i n e p o,
        assoc "id" d = Some i -> assoc "name" d = Some n ->
        assoc "encrypted" d = Some e -> assoc "permission" d = Some p ->
        assoc "owner" d = Some o ->
        exists r, from_json c (PyDict d) = Ret r
                  /\ client r = c /\ id r = i /\ name r = n
                  /\ encrypted r = e /\ perm r = p /\ owner r = o).
Proof.
  destruct (from_json_cases c d)
    as [(k & Hin & Hnone & Hraise)
       | (i & n & e & p & o & Hi & Hn & He & Hp & Ho & Hret)].
  - repeat split.
    + intros _. eexists. exact Hraise.
    + intros _. exists k. auto.
    + rewrite Hraise in H. injection H as <-. reflexivity.
    + rewrite Hraise in H. injection H as <-. exists k. auto.
    + rewrite Hraise. reflexivity.
    + intros i n e p o Hi Hn He Hp Ho.
      destruct Hin as [<- | [<- | [<- | [<- | [<- | []]]]]]; congruence.
  - repeat split.
    + intros (k & Hin & Hnone).
      destruct Hin as [<- | [<- | [<- | [<- | [<- | []]]]]]; congruence.
    + intros (x & Hx). rewrite Hret in Hx. discriminate.
    + rewrite Hret in H. discriminate.
    + rewrite Hret in H. discriminate.
    + rewrite Hret. reflexivity.
    + intros i' n' e' p' o' Hi' Hn' He' Hp' Ho'.
      exists (mkRepo c i n e o p). simpl.
      repeat split; congruence.
Qed.

(** ** Share links that are refused *)

(** C5. A share link that [validators.url] does not accept, or that splits
    on the slash into fewer than five segments, makes
    [get_element_by_share_link] raise [ValueError] with the message
    "Invalid share link", an invalid-argument error, with no call to the
    transport. *)
Theorem get_element_by_share_link_rejects (self : Repo) (share_link : string)
    (Hbad : validators_url share_link = false
            \/ (length (split "/" share_link) < 5)%nat) :
  get_element_by_share_link self share_link = Raise (ValueError "Invalid share link")
  /\ error_kind (ValueError "Invalid share link") = InvalidArgument
  /\ (forall svc tr,
        run svc (get_element_by_share_link self share_link) tr
        = (Err (ValueError "Invalid share link"), tr)).
Proof.
  assert (Hg : get_element_by_share_link self share_link
               = Raise (ValueError "Invalid share link")).
  { unfold get_element_by_share_link.
    destruct Hbad as [Hv | Hlen].
    - rewrite Hv. reflexivity.
    - apply Nat.leb_gt in Hlen. rewrite Hlen, andb_false_r. reflexivity. }
  repeat split; try assumption.
  intros svc tr. rewrite Hg. reflexivity.
Qed.

(** ** Not found *)

(** C6. When the service answers the metadata lookup of [get_file] with
    the "not found" status, [get_file] fails with [DoesNotExist] carrying
    exactly "The requested file does not exist"; when it answers the
    listing request of [get_dir] so, [get_dir] fails with [DoesNotExist]
    carrying exactly "The requested dir does not exist". Both are
    not-found errors and the one request made is recorded. *)
Theorem not_found_messages (svc : Service) (tr : list Event) (self : Repo)
    (path : string) (Hpath : startswith "/" path = true) :
  (svc tr (client self, GET (file_detail_url self ++ file_query path))
     = Err (ClientHttpError 404) ->
   run svc (get_file self path) tr
   = (Err (DoesNotExist "The requested file does not exist"),
      (tr ++ [(client self, GET (file_detail_url self ++ file_query path))])%list))
  /\ (svc tr (client self, GET (dir_url self ++ dir_query path))
        = Err (ClientHttpError 404) ->
      run svc (get_dir self path) tr
      = (Err (DoesNotExist "The requested dir does not exist"),
         (tr ++ [(client self, GET (dir_url self ++ dir_query path))])%list))
  /\ (forall msg, error_kind (DoesNotExist msg) = NotFound).
Proof.
  split; [| split].
  - intros Hsvc. unfold get_file, raise_does_not_exist, client_get.
    rewrite Hpath. cbv zeta. cbn [bind try_except].
    rewrite run_call, Hsvc. reflexivity.
  - intros Hsvc. unfold get_dir, raise_does_not_exist, client_get.
    rewrite Hpath. cbv zeta. cbn [bind try_except].
    rewrite run_call, Hsvc. reflexivity.
  - reflexivity.
Qed.

(** ** Upload *)


(** ** Share links that resolve *)

Lemma split_segment (sep : ascii) (a b : string) :
  contains_char sep a = false ->
  split sep (a ++ String sep b) = a :: split sep b.
Proof.
  induction a as [| c a IH]; simpl; intros Hno.
  - rewrite Ascii.eqb_refl. reflexivity.
  - apply orb_false_elim in Hno. destruct Hno as [Hc Ha].
    rewrite Hc, (IH Ha). reflexivity.
Qed.

Lemma split_share_link (host token : string) :
  contains_char "/" host = false ->
  contains_char "/" token = false ->
  split "/" ("https://" ++ host ++ "/d/" ++ token ++ "/")
  = ["https:"; EmptyString; host; "d"; token; EmptyString].
Proof.
  intros Hhost Htoken.
  change ("https://" ++ host ++ "/d/" ++ token ++ "/")
    with ("https:" ++ String "/" (EmptyString ++ String "/"
            (host ++ String "/" ("d" ++ String "/" (token ++ String "/" EmptyString))))).
  rewrite (split_segment "/" "https:") by reflexivity.
  rewrite (split_segment "/" EmptyString) by reflexivity.
  rewrite (split_segment "/" host) by assumption.
  rewrite (split_segment "/" "d") by reflexivity.
  rewrite (split_segment "/" token) by assumption.
  reflexivity.
Qed.

(** C8. For a share link https://host/d/token/ that the URL validator
    accepts, the token is the segment of index 4; once its details are
    fetched, a true [is_dir] makes the call [get_dir] on the resolved path
    and a false one [get_file], run after the details request: same
    outcome, same requests. With the details path "/x" and [is_dir] true the
    call is [get_dir "/x"]. *)
Theorem share_link_dispatch
    (svc : Service) (tr : list Event) (self : Repo) (host token : string)
    (resp : Response) (details : list (string * PyVal)) (path : string)
    (is_dir : bool)
    (Hhost : contains_char "/" host = false)
    (Htoken : contains_char "/" token = false)
    (Hurl : validators_url ("https://" ++ host ++ "/d/" ++ token ++ "/") = true)
    (Hsvc : svc tr (client self, GET (share_link_url token)) = Ok resp)
    (Hjson : json resp = Ok (PyDict details))
    (Hpath : assoc "path" details = Some (PyStr path))
    (Hdir : assoc "is_dir" details = Some (PyBool is_dir)) :
  nth 4 (split "/" ("https://" ++ host ++ "/d/" ++ token ++ "/")) EmptyString = token
  /\ run svc (get_element_by_share_link self
                ("https://" ++ host ++ "/d/" ++ token ++ "/")) tr
     = if is_dir
       then map_outcome EDir
              (run svc (get_dir self path)
                   (tr ++ [(client self, GET (share_link_url token))])%list)
       else map_outcome EFile
              (run svc (get_file self path)
                   (tr ++ [(client self, GET (share_link_url token))])%list).
Proof.
  split.
  - rewrite (split_share_link host token Hhost Htoken). reflexivity.
  - unfold get_element_by_share_link.
    rewrite Hurl, (split_share_link host token Hhost Htoken).
    cbn [length Nat.leb andb nth]. cbv zeta.
    unfold get_share_link_details, client_get. cbv zeta.
    cbn [bind]. rewrite run_call, Hsvc. cbn [lift bind].
    rewrite Hjson. cbn [lift bind py_get].
    rewrite Hpath, Hdir. cbn [lift bind truthy get_dir_dyn get_file_dyn].
    destruct is_dir; rewrite run_bind; unfold map_outcome;
      match goal with
      | |- context [run svc ?p ?t] => destruct (run svc p t) as [[d | e] tr']
      end; reflexivity.
Qed.

(** ** The directory-listing request *)

(** C9. The first request of [get_dir "/"] is a GET of the directory URL
    with nothing appended; for every other slash-rooted path it is a GET of
    the directory URL followed by a question mark and the URL-encoding of
    p=path. For "/a/b" the query is p=%2Fa%2Fb. *)
Theorem get_dir_query_string (self : Repo) :
  first_request (get_dir self "/")
  = Some (client self, GET ("/api2/repos/" ++ py_str (id self) ++ "/dir/"))
  /\ (forall path, startswith "/" path = true -> path <> "/" ->
        first_request (get_dir self path)
        = Some (client self,
                GET (("/api2/repos/" ++ py_str (id self) ++ "/dir/")
                     ++ "?" ++ urlencode [("p", path)])))
  /\ urlencode [("p", "/a/b")] = "p=%2Fa%2Fb"
  /\ first_request (get_dir self "/a/b")
     = Some (client self,
             GET (("/api2/repos/" ++ py_str (id self) ++ "/dir/") ++ "?p=%2Fa%2Fb")).
Proof.
  repeat split.
  - unfold get_dir, dir_query, dir_url. simpl.
    rewrite append_empty. reflexivity.
  - intros path Hpath Hroot.
    unfold get_dir, dir_query, dir_url. rewrite Hpath.
    apply String.eqb_neq in Hroot. rewrite Hroot. reflexivity.
Qed.

(** ** Placeholders *)

(** C10. [list_history], [update], [get_settings] and [Repo.restore] return
    [None] on every input, with the handle as it was, and are programs
    without a call to the transport or a raised exception: run against any
    service they return and leave the list of requests as it was. *)
Theorem placeholders_do_nothing (self : Repo) (new_name commit : PyVal) :
  list_history self = Ret (self, PyNone)
  /\ update self new_name = Ret (self, PyNone)
  /\ get_settings self = Ret (self, PyNone)
  /\ restore self commit = Ret (self, PyNone)
  /\ (forall svc tr,
        run svc (list_history self) tr = (Ok (self, PyNone), tr)
        /\ run svc (update self new_name) tr = (Ok (self, PyNone), tr)
        /\ run svc (get_settings self) tr = (Ok (self, PyNone), tr)
        /\ run svc (restore self commit) tr = (Ok (self, PyNone), tr)).
Proof.
  repeat split.
Qed.

(** ** Where the module departs from its description *)

Lemma wrap_fileobj_cases (fileobj : FileObj) :
  wrap_fileobj fileobj = Ret fileobj \/ wrap_fileobj fileobj = Raise TypeError.
Proof.
  destruct fileobj; simpl; auto.
Qed.

(** C3. No input is wrapped into an in-memory stream: a byte string is
    handed to the upload as it is, where [upload_file] on the stream over
    the same bytes posts that stream, and a text string raises [TypeError]
    before any request. *)
Theorem upload_file_never_wraps (self : Repo) (filename filepath : string) :
  (forall b, wrap_fileobj (FBytes b) = Ret (FBytes b))
  /\ (forall fileobj, wrap_fileobj fileobj = Ret fileobj
                      \/ wrap_fileobj fileobj = Raise TypeError)
  /\ (forall s, upload_file self (FText s) filename filepath = Raise TypeError)
  /\ (forall b, upload_files (FBytes b) filename filepath
                <> upload_files (FStream (BytesIO b)) filename filepath).
Proof.
  repeat split.
  - apply wrap_fileobj_cases.
  - intros b H. discriminate H.
Qed.

(** C4. [RepoRevision.restore] looks up [revert] on the repository handle,
    which has no such attribute ([restore] is the method it has): on every
    revision it raises [AttributeError] and [Repo.restore] is not called. *)
Theorem RepoRevision_restore_raises (self : RepoRevision) :
  Repo_getattr "revert" = None
  /\ Repo_getattr "restore" = Some (BoundMethod m_restore)
  /\ RepoRevision_restore self = Raise (AttributeError "revert")
  /\ RepoRevision_restore self
     <> call_method1 m_restore (repo self) (commit_id self)
  /\ (forall svc tr,
        run svc (RepoRevision_restore self) tr = (Err (AttributeError "revert"), tr)
        /\ run svc (call_method1 m_restore (repo self) (commit_id self)) tr
           = (Ok PyNone, tr)).
Proof.
  repeat split.
  intros H. discriminate H.
Qed.

(** * Further properties of the module *)

(** ** [is_readonly] and [from_json] *)

Lemma contains_char_split (c : ascii) (s : string) :
  contains_char c s = true <-> exists a b, s = a ++ String c b.
Proof.
  induction s as [| c' s IH]; simpl.
  - split; [discriminate |].
    intros (a & b & H). destruct a; discriminate H.
  - split.
    + intros H. apply orb_true_iff in H. destruct H as [H | H].
      * apply Ascii.eqb_eq in H. subst c'. exists EmptyString, s. reflexivity.
      * apply IH in H. destruct H as (a & b & ->).
        exists (String c' a), b. reflexivity.
    + intros (a & b & H). apply orb_true_iff.
      destruct a as [| x a]; simpl in H; injection H as -> ->.
      * left. apply Ascii.eqb_refl.
      * right. apply IH. exists a, b. reflexivity.
Qed.

(** X1. On a handle whose permission is a string, [is_readonly] never
    fails, and it answers [False] exactly when the letter w occurs somewhere
    in the permission; the empty permission is read-only. *)
Theorem is_readonly_iff_no_write_marker (self : Repo) (p : string)
    (Hperm : perm self = PyStr p) :
  (is_readonly self = Ok false <-> exists a b, p = a ++ String "w" b)
  /\ (is_readonly self = Ok true <-> forall a b, p <> a ++ String "w" b)
  /\ (p = EmptyString -> is_readonly self = Ok true).
Proof.
  unfold is_readonly. rewrite Hperm. simpl.
  pose proof (contains_char_split "w" p) as Hsplit.
  destruct (contains_char "w" p) eqn:Hc; simpl.
  - assert (Hex : exists a b, p = a ++ String "w" b) by (apply Hsplit; reflexivity).
    split; [split | split; [split |]].
    + intros _. exact Hex.
    + reflexivity.
    + intros H. discriminate H.
    + intros H. destruct Hex as (a & b & Hab). exfalso. exact (H a b Hab).
    + intros ->. discriminate Hc.
  - assert (Hno : forall a b, p <> a ++ String "w" b).
    { intros a b Hab.
      assert (Ht : false = true) by (apply Hsplit; exists a, b; exact Hab).
      discriminate Ht. }
    split; [split | split; [split |]].
    + intros H. discriminate H.
    + intros (a & b & Hab). exfalso. exact (Hno a b Hab).
    + intros _. exact Hno.
    + reflexivity.
    + reflexivity.
Qed.

(** X2. [from_json] does not look at the type of a field: a permission that
    is null, a boolean or a number is stored as it is, and [is_readonly] on
    the handle so built raises [TypeError]. *)
Theorem from_json_keeps_untyped_permission (c : Client) (d : list (string * PyVal))
    (i n e o p : PyVal)
    (Hi : assoc "id" d = Some i) (Hn : assoc "name" d = Some n)
    (He : assoc "encrypted" d = Some e) (Hp : assoc "permission" d = Some p)
    (Ho : assoc "owner" d = Some o)
    (Hscalar : p = PyNone \/ (exists b, p = PyBool b) \/ (exists z, p = PyInt z)) :
  exists r, from_json c (PyDict d) = Ret r
            /\ perm r = p
            /\ is_readonly r = Err TypeError.
Proof.
  exists (mkRepo c i n e o p).
  unfold from_json, getitem_str. rewrite Hi, Hn, He, Hp, Ho. simpl.
  repeat split.
  unfold is_readonly. simpl.
  destruct Hscalar as [-> | [[b ->] | [z ->]]]; reflexivity.
Qed.

(** X3. When several required fields are absent, [from_json] reports the
    first one in the order id, name, encrypted, permission, owner. *)
Theorem from_json_first_missing_field (c : Client) (d : list (string * PyVal))
    (before after : list string) (k : string)
    (Horder : required_fields = (before ++ k :: after)%list)
    (Hbefore : forall k', In k' before -> assoc k' d <> None)
    (Hmissing : assoc k d = None) :
  from_json c (PyDict d) = Raise (KeyError (PyStr k)).
Proof.
  unfold required_fields in Horder.
  assert (Hpresent : forall k', In k' before -> exists v, assoc k' d = Some v).
  { intros k' Hin. specialize (Hbefore k' Hin).
    destruct (assoc k' d) as [v |]; [exists v; reflexivity | contradiction]. }
  unfold from_json, getitem_str.
  destruct before as [| b1 before]; simpl in Horder; injection Horder as <- Horder.
  { rewrite Hmissing. reflexivity. }
  destruct (Hpresent "id" (or_introl eq_refl)) as [v1 ->]. cbn [lift bind].
  destruct before as [| b2 before]; simpl in Horder; injection Horder as <- Horder.
  { rewrite Hmissing. reflexivity. }
  destruct (Hpresent "name" (or_intror (or_introl eq_refl))) as [v2 ->]. cbn [lift bind].
  destruct before as [| b3 before]; simpl in Horder; injection Horder as <- Horder.
  { rewrite Hmissing. reflexivity. }
  destruct (Hpresent "encrypted" (or_intror (or_intror (or_introl eq_refl))))
    as [v3 ->]. cbn [lift bind].
  destruct before as [| b4 before]; simpl in Horder; injection Horder as <- Horder.
  { rewrite Hmissing. reflexivity. }
  destruct (Hpresent "permission"
              (or_intror (or_intror (or_intror (or_introl eq_refl)))))
    as [v4 ->]. cbn [lift bind].
  destruct before as [| b5 before]; simpl in Horder; injection Horder as <- Horder.
  { rewrite Hmissing. reflexivity. }
  destruct before; discriminate Horder.
Qed.

(** X4. Given JSON that is not an object (null, a boolean, a number, a
    string or a list), [from_json] raises [TypeError] and makes no request. *)
Theorem from_json_non_object (c : Client) (v : PyVal)
    (Hnot : forall d, v <> PyDict d) :
  from_json c v = Raise TypeError
  /\ forall svc tr, run svc (from_json c v) tr = (Err TypeError, tr).
Proof.
  assert (H : from_json c v = Raise TypeError).
  { destruct v; try reflexivity. exfalso. exact (Hnot d eq_refl). }
  split; [exact H |].
  intros svc tr. rewrite H. reflexivity.
Qed.

(** ** [get_file] *)

(** X5. When the service answers the lookup with a JSON object that has
    [id] and [size], [get_file] returns the file handle bound to this
    repository and the given path, carrying those two values, after exactly
    one request. *)
Theorem get_file_success (svc : Service) (tr : list Event) (self : Repo)
    (path : string) (resp : Response) (body : list (string * PyVal))
    (fid fsize : PyVal)
    (Hpath : startswith "/" path = true)
    (Hsvc : svc tr (client self, GET (file_detail_url self ++ file_query path))
            = Ok resp)
    (Hjson : json resp = Ok (PyDict body))
    (Hid : assoc "id" body = Some fid)
    (Hsize : assoc "size" body = Some fsize) :
  run svc (get_file self path) tr
  = (Ok (mkSeafFile self path fid fsize),
     (tr ++ [(client self, GET (file_detail_url self ++ file_query path))])%list).
Proof.
  unfold get_file, raise_does_not_exist, client_get.
  rewrite Hpath. cbv zeta. cbn [bind try_except].
  rewrite run_call, Hsvc. cbn [lift bind].
  rewrite Hjson. cbn [lift bind getitem_str].
  rewrite Hid, Hsize. reflexivity.
Qed.

(** X6. A lookup answer without [id] makes [get_file] raise the missing-key
    error for [id], whether or not [size] is there; one with [id] but
    without [size] raises it for [size]; a body that is not an object
    raises [TypeError]. The request has been made in each case. *)
Theorem get_file_malformed_answer (svc : Service) (tr : list Event) (self : Repo)
    (path : string) (resp : Response) (body : PyVal)
    (Hpath : startswith "/" path = true)
    (Hsvc : svc tr (client self, GET (file_detail_url self ++ file_query path))
            = Ok resp)
    (Hjson : json resp = Ok body) :
  (forall d, body = PyDict d -> assoc "id" d = None ->
     run svc (get_file self path) tr
     = (Err (KeyError (PyStr "id")),
        (tr ++ [(client self, GET (file_detail_url self ++ file_query path))])%list))
  /\ (forall d fid, body = PyDict d -> assoc "id" d = Some fid ->
        assoc "size" d = None ->
        run svc (get_file self path) tr
        = (Err (KeyError (PyStr "size")),
           (tr ++ [(client self, GET (file_detail_url self ++ file_query path))])%list))
  /\ ((forall d, body <> PyDict d) ->
      run svc (get_file self path) tr
      = (Err TypeError,
         (tr ++ [(client self, GET (file_detail_url self ++ file_query path))])%list)).
Proof.
  assert (Hrun : run svc (get_file self path) tr
                 = run svc (raise_does_not_exist "The requested file does not exist"
                              (fid <- lift (getitem_str body "id") ;;
                               fsize <- lift (getitem_str body "size") ;;
                               Ret (mkSeafFile self path fid fsize)))
                       (tr ++ [(client self,
                                GET (file_detail_url self ++ file_query path))])%list).
  { unfold get_file, raise_does_not_exist, client_get.
    rewrite Hpath. cbv zeta. cbn [bind try_except].
    rewrite run_call, Hsvc. cbn [lift bind]. rewrite Hjson. reflexivity. }
  rewrite Hrun. split; [| split].
  - intros d -> Hid. cbn [getitem_str]. rewrite Hid. reflexivity.
  - intros d fid -> Hid Hsize. cbn [getitem_str]. rewrite Hid, Hsize. reflexivity.
  - intros Hnot. destruct body; try reflexivity.
    exfalso. exact (Hnot d eq_refl).
Qed.

(** X7. Only the status 404 becomes "not found": every other exception the
    client raises on the lookup (another status, a connection failure)
    leaves [get_file] unchanged. *)
Theorem get_file_propagates_other_errors (svc : Service) (tr : list Event)
    (self : Repo) (path : string) (e : PyExn)
    (Hpath : startswith "/" path = true)
    (Hsvc : svc tr (client self, GET (file_detail_url self ++ file_query path))
            = Err e)
    (Hother : e <> ClientHttpError 404) :
  run svc (get_file self path) tr
  = (Err e,
     (tr ++ [(client self, GET (file_detail_url self ++ file_query path))])%list).
Proof.
  unfold get_file, raise_does_not_exist, client_get.
  rewrite Hpath. cbv zeta. cbn [bind try_except].
  rewrite run_call, Hsvc. cbn [lift bind try_except].
  destruct e; try reflexivity.
  destruct (Z.eqb_spec code 404) as [-> | Hne]; [contradiction | reflexivity].
Qed.

(** X8. On a slash-rooted path [get_file] makes exactly one request, the
    GET of the file-detail URL, whatever the service answers. *)
Theorem get_file_exactly_one_request (svc : Service) (tr : list Event)
    (self : Repo) (path : string)
    (Hpath : startswith "/" path = true) :
  snd (run svc (get_file self path) tr)
  = (tr ++ [(client self, GET (file_detail_url self ++ file_query path))])%list.
Proof.
  unfold get_file, raise_does_not_exist, client_get.
  rewrite Hpath. cbv zeta. cbn [bind try_except].
  rewrite run_call.
  destruct (svc tr (client self, GET (file_detail_url self ++ file_query path)))
    as [resp | e]; cbn [lift bind try_except].
  - destruct (json resp) as [body | e]; cbn [lift bind try_except].
    + destruct (getitem_str body "id") as [fid | e]; cbn [lift bind try_except].
      * destruct (getitem_str body "size") as [fsize | e]; cbn [lift bind try_except].
        -- reflexivity.
        -- destruct e; try reflexivity. destruct (Z.eqb code 404); reflexivity.
      * destruct e; try reflexivity. destruct (Z.eqb code 404); reflexivity.
    + destruct e; try reflexivity. destruct (Z.eqb code 404); reflexivity.
  - destruct e; try reflexivity. destruct (Z.eqb code 404); reflexivity.
Qed.

(** ** [get_dir] *)

(** X9. The directory id is read from the [oid] header before the body is
    decoded: an answer without that header makes [get_dir] raise the
    missing-key error for [oid], also when the body could not be decoded,
    and the entries are never loaded. *)
Theorem get_dir_missing_oid (svc : Service) (tr : list Event) (self : Repo)
    (path : string) (resp : Response)
    (Hpath : startswith "/" path = true)
    (Hsvc : svc tr (client self, GET (dir_url self ++ dir_query path)) = Ok resp)
    (Hoid : headers resp "oid" = None) :
  run svc (get_dir self path) tr
  = (Err (KeyError (PyStr "oid")),
     (tr ++ [(client self, GET (dir_url self ++ dir_query path))])%list).
Proof.
  unfold get_dir, raise_does_not_exist, client_get.
  rewrite Hpath. cbv zeta. cbn [bind try_except].
  rewrite run_call, Hsvc. cbn [lift bind].
  unfold headers_getitem. rewrite Hoid. reflexivity.
Qed.

(** X10. On a good answer [get_dir] builds the directory handle from this
    repository, the path and the [oid] header and hands the decoded body to
    [load_entries]; that call still runs under the not-found decorator, so
    a 404 raised while loading entries also becomes "The requested dir does
    not exist". *)
Theorem get_dir_loads_entries (svc : Service) (tr : list Event) (self : Repo)
    (path : string) (resp : Response) (oid : string) (body : PyVal)
    (Hpath : startswith "/" path = true)
    (Hsvc : svc tr (client self, GET (dir_url self ++ dir_query path)) = Ok resp)
    (Hoid : headers resp "oid" = Some oid)
    (Hjson : json resp = Ok body) :
  run svc (get_dir self path) tr
  = run svc (raise_does_not_exist "The requested dir does not exist"
               (load_entries (mkSeafDir self path oid None) body))
        (tr ++ [(client self, GET (dir_url self ++ dir_query path))])%list.
Proof.
  unfold get_dir, raise_does_not_exist, client_get.
  rewrite Hpath. cbv zeta. cbn [bind try_except].
  rewrite run_call, Hsvc. cbn [lift bind].
  unfold headers_getitem. rewrite Hoid. cbn [lift bind].
  rewrite Hjson. reflexivity.
Qed.

(** ** [delete] *)

(** X11. On a handle with a string id, whatever its owner and permission,
    [delete] makes exactly one request, the DELETE of /api2/repos/ followed
    by the id; it returns [None] for any response and passes on any
    exception of the client unchanged, a 404 included. *)
Theorem delete_outcome (svc : Service) (tr : list Event) (self : Repo)
    (i : string) (Hid : id self = PyStr i) :
  run svc (delete self) tr
  = (match svc tr (client self, DELETE ("/api2/repos/" ++ i)) with
     | Ok _ => Ok PyNone
     | Err e => Err e
     end,
     (tr ++ [(client self, DELETE ("/api2/repos/" ++ i))])%list).
Proof.
  unfold delete, client_delete. rewrite Hid. cbn [bind].
  rewrite run_call.
  destruct (svc tr (client self, DELETE ("/api2/repos/" ++ i))); reflexivity.
Qed.

(** X12. An id that is not a string is formatted into the URLs of
    [get_file], but [delete] concatenates it: there it raises [TypeError]
    and no request is made. *)
Theorem delete_non_string_id (self : Repo)
    (Hid : forall s, id self <> PyStr s) :
  delete self = Raise TypeError
  /\ first_request (get_file self "/")
     = Some (client self,
             GET (("/api2/repos/" ++ py_repr (id self) ++ "/file/detail/")
                  ++ "?p=%2F")).
Proof.
  unfold delete, get_file, file_detail_url, py_str.
  destruct (id self) as [| b | z | s | l | d] eqn:E;
    try (split; reflexivity).
  exfalso. exact (Hid s eq_refl).
Qed.

(** ** [_get_upload_link] and [upload_file] *)

Lemma first_line_app (u t : string) :
  contains_char "010" u = false ->
  first_line (u ++ String dquote t) = u ++ String dquote (first_line t).
Proof.
  induction u as [| c u IH]; simpl; intros Hno.
  - reflexivity.
  - apply orb_false_elim in Hno. destruct Hno as [Hc Hu].
    rewrite Hc, (IH Hu). reflexivity.
Qed.

Lemma first_line_keeps_no_quote (t : string) :
  contains_char dquote t = false -> contains_char dquote (first_line t) = false.
Proof.
  induction t as [| c t IH]; simpl; intros Hno.
  - reflexivity.
  - apply orb_false_elim in Hno. destruct Hno as [Hc Ht].
    destruct (Ascii.eqb c "010"); simpl.
    + reflexivity.
    + rewrite Hc, (IH Ht). reflexivity.
Qed.

Lemma upto_last_quote_none (t : string) :
  contains_char dquote t = false -> upto_last_quote t = None.
Proof.
  induction t as [| c t IH]; simpl; intros Hno.
  - reflexivity.
  - apply orb_false_elim in Hno. destruct Hno as [Hc Ht].
    rewrite (IH Ht), Hc. reflexivity.
Qed.

Lemma upto_last_quote_app (u t : string) :
  contains_char dquote t = false ->
  upto_last_quote (u ++ String dquote t) = Some u.
Proof.
  intros Hno. induction u as [| c u IH]; simpl.
  - rewrite (upto_last_quote_none t Hno). reflexivity.
  - rewrite IH. reflexivity.
Qed.

Lemma re_match_quoted_unquotes (u tail : string) :
  contains_char "010" u = false ->
  contains_char dquote tail = false ->
  re_match_quoted (String dquote (u ++ String dquote tail)) = Some u.
Proof.
  intros Hu Htail. unfold re_match_quoted.
  rewrite Ascii.eqb_refl, (first_line_app u tail Hu).
  apply upto_last_quote_app. apply first_line_keeps_no_quote. exact Htail.
Qed.

(** X13. When the upload-link answer is a URL between double quotes,
    possibly followed by more text without a quote (a line end, say),
    [_get_upload_link] returns exactly the URL, quotes inside it included,
    after one request. *)
Theorem get_upload_link_unquotes (svc : Service) (tr : list Event) (self : Repo)
    (resp : Response) (u tail : string)
    (Hsvc : svc tr (client self, GET (upload_link_url self)) = Ok resp)
    (Htext : text resp = String dquote (u ++ String dquote tail))
    (Hline : contains_char "010" u = false)
    (Htail : contains_char dquote tail = false) :
  run svc (_get_upload_link self) tr
  = (Ok u, (tr ++ [(client self, GET (upload_link_url self))])%list).
Proof.
  unfold _get_upload_link, client_get. cbv zeta. cbn [bind].
  rewrite run_call, Hsvc. cbn [lift bind].
  rewrite Htext, (re_match_quoted_unquotes u tail Hline Htail). reflexivity.
Qed.

(** X14. When the upload-link answer does not match (it is empty, does not
    begin with a double quote, or has no second quote on its first line),
    [upload_file] raises [AttributeError] and nothing is posted: the only
    request is the GET of the upload link. *)
Theorem upload_file_unquoted_link (svc : Service) (tr : list Event) (self : Repo)
    (fileobj : FileObj) (filename filepath : string) (resp : Response)
    (Hobj : isinstance_str fileobj = false)
    (Hsvc : svc tr (client self, GET (upload_link_url self)) = Ok resp)
    (Hno : re_match_quoted (text resp) = None) :
  run svc (upload_file self fileobj filename filepath) tr
  = (Err (AttributeError "group"),
     (tr ++ [(client self, GET (upload_link_url self))])%list).
Proof.
  unfold upload_file, wrap_fileobj. rewrite Hobj. cbn [bind].
  unfold _get_upload_link, client_get. cbv zeta. cbn [bind].
  rewrite run_call, Hsvc. cbn [lift bind]. rewrite Hno. reflexivity.
Qed.

Lemma run_upload_file (svc : Service) (tr : list Event) (self : Repo)
    (fileobj : FileObj) (filename filepath : string)
    (resp1 resp2 : Response) (link : string) (body : PyVal) :
  isinstance_str fileobj = false ->
  svc tr (client self, GET (upload_link_url self)) = Ok resp1 ->
  re_match_quoted (text resp1) = Some link ->
  svc (tr ++ [(client self, GET (upload_link_url self))])%list
      (client self,
       POST (link ++ "?ret-json=1") (upload_files fileobj filename filepath))
  = Ok resp2 ->
  json resp2 = Ok body ->
  run svc (upload_file self fileobj filename filepath) tr
  = run svc (first <- lift (getitem_0 body) ;;
             fname <- lift (getitem_str first "name") ;;
             match fname with
             | PyStr n => get_file self (posixpath_join ("/" ++ filepath) n)
             | _ => Raise TypeError
             end)
        (tr ++ [(client self, GET (upload_link_url self));
                (client self,
                 POST (link ++ "?ret-json=1")
                      (upload_files fileobj filename filepath))])%list.
Proof.
  intros Hobj Hlink Hmatch Hpost Hjson.
  unfold upload_file, wrap_fileobj. rewrite Hobj.
  cbn [bind]. unfold _get_upload_link, client_get, client_post.
  cbv zeta. cbn [bind]. rewrite run_call, Hlink.
  cbn [lift bind]. rewrite Hmatch. cbn [bind].
  rewrite run_call, Hpost. cbn [lift bind].
  rewrite Hjson. cbn [lift bind].
  rewrite <- app_assoc. reflexivity.
Qed.

(** X15. For any file object that is not a text string, any file name and
    any file path: the upload posts to the link followed by ?ret-json=1
    the file under the given name, the parent directory "/" and the file
    path as relative path, and then is [get_file] on the join of "/" +
    filepath with the name the service returned (not the name that was
    passed), run after the two requests. *)
Theorem upload_file_resolves_returned_name
    (svc : Service) (tr : list Event) (self : Repo) (fileobj : FileObj)
    (filename filepath : string) (resp1 resp2 : Response) (link : string)
    (fields : list (string * PyVal)) (others : list PyVal) (returned : string)
    (Hobj : isinstance_str fileobj = false)
    (Hlink : svc tr (client self, GET (upload_link_url self)) = Ok resp1)
    (Hmatch : re_match_quoted (text resp1) = Some link)
    (Hpost : svc (tr ++ [(client self, GET (upload_link_url self))])%list
                 (client self,
                  POST (link ++ "?ret-json=1")
                       (mkUploadFiles (filename, fileobj) "/" filepath))
             = Ok resp2)
    (Hjson : json resp2 = Ok (PyList (PyDict fields :: others)))
    (Hname : assoc "name" fields = Some (PyStr returned)) :
  run svc (upload_file self fileobj filename filepath) tr
  = run svc (get_file self (posixpath_join ("/" ++ filepath) returned))
        (tr ++ [(client self, GET (upload_link_url self));
                (client self,
                 POST (link ++ "?ret-json=1")
                      (mkUploadFiles (filename, fileobj) "/" filepath))])%list.
Proof.
  rewrite (run_upload_file svc tr self fileobj filename filepath resp1 resp2 link
             _ Hobj Hlink Hmatch Hpost Hjson).
  cbn [lift bind getitem_0 getitem_str]. rewrite Hname. reflexivity.
Qed.

Lemma startswith_slash (rest : string) : startswith "/" (String "/" rest) = true.
Proof.
  unfold startswith. apply String.prefix_correct. simpl.
  destruct rest; reflexivity.
Qed.

Lemma upload_path_is_rooted_aux (filepath returned : string) :
  startswith "/" (posixpath_join ("/" ++ filepath) returned) = true
  /\ (startswith "/" returned = true ->
      posixpath_join ("/" ++ filepath) returned = returned).
Proof.
  unfold posixpath_join.
  destruct (startswith "/" returned) eqn:Hr.
  - split; [exact Hr | reflexivity].
  - split; [| discriminate].
    destruct (String.eqb ("/" ++ filepath) EmptyString || ends_with_sep ("/" ++ filepath));
      apply startswith_slash.
Qed.

(** X16. The path [upload_file] resolves always starts with a slash, so
    the re-resolution never fails the path assertion of [get_file]; a
    returned name that itself starts with a slash replaces the file path
    altogether. *)
Theorem upload_path_is_rooted (filepath returned : string) :
  startswith "/" (posixpath_join ("/" ++ filepath) returned) = true
  /\ (startswith "/" returned = true ->
      posixpath_join ("/" ++ filepath) returned = returned).
Proof.
  exact (upload_path_is_rooted_aux filepath returned).
Qed.

(** X17. After a successful post, an answer that is an empty list makes
    [upload_file] raise [IndexError]; a first element without [name] the
    missing-key error; a name that is not a string [TypeError]. In each case
    both requests have been made and no file is resolved. *)
Theorem upload_file_malformed_answer
    (svc : Service) (tr : list Event) (self : Repo) (fileobj : FileObj)
    (filename filepath : string) (resp1 resp2 : Response) (link : string)
    (body : PyVal)
    (Hobj : isinstance_str fileobj = false)
    (Hlink : svc tr (client self, GET (upload_link_url self)) = Ok resp1)
    (Hmatch : re_match_quoted (text resp1) = Some link)
    (Hpost : svc (tr ++ [(client self, GET (upload_link_url self))])%list
                 (client self,
                  POST (link ++ "?ret-json=1")
                       (upload_files fileobj filename filepath))
             = Ok resp2)
    (Hjson : json resp2 = Ok body) :
  let done := (tr ++ [(client self, GET (upload_link_url self));
                      (client self,
                       POST (link ++ "?ret-json=1")
                            (upload_files fileobj filename filepath))])%list in
  (body = PyList [] ->
   run svc (upload_file self fileobj filename filepath) tr = (Err IndexError, done))
  /\ (forall fields others,
        body = PyList (PyDict fields :: others) -> assoc "name" fields = None ->
        run svc (upload_file self fileobj filename filepath) tr
        = (Err (KeyError (PyStr "name")), done))
  /\ (forall fields others v,
        body = PyList (PyDict fields :: others) -> assoc "name" fields = Some v ->
        (forall s, v <> PyStr s) ->
        run svc (upload_file self fileobj filename filepath) tr
        = (Err TypeError, done)).
Proof.
  intros done. subst done.
  rewrite (run_upload_file svc tr self fileobj filename filepath resp1 resp2 link
             body Hobj Hlink Hmatch Hpost Hjson).
  split; [| split].
  - intros ->. reflexivity.
  - intros fields others -> Hname. cbn [lift bind getitem_0 getitem_str].
    rewrite Hname. reflexivity.
  - intros fields others v -> Hname Hv. cbn [lift bind getitem_0 getitem_str].
    rewrite Hname. cbn [lift bind].
    destruct v; try reflexivity. exfalso. exact (Hv s eq_refl).
Qed.

(** X18. The upload can succeed and [upload_file] still fail with "not
    found": when the lookup that follows the post is answered with the
    status 404, the call raises [DoesNotExist] with the file message, all
    three requests made. *)
Theorem upload_file_not_found_after_upload
    (svc : Service) (tr : list Event) (self : Repo) (fileobj : FileObj)
    (filename filepath : string) (resp1 resp2 : Response) (link : string)
    (fields : list (string * PyVal)) (others : list PyVal) (returned : string)
    (Hobj : isinstance_str fileobj = false)
    (Hlink : svc tr (client self, GET (upload_link_url self)) = Ok resp1)
    (Hmatch : re_match_quoted (text resp1) = Some link)
    (Hpost : svc (tr ++ [(client self, GET (upload_link_url self))])%list
                 (client self,
                  POST (link ++ "?ret-json=1")
                       (upload_files fileobj filename filepath))
             = Ok resp2)
    (Hjson : json resp2 = Ok (PyList (PyDict fields :: others)))
    (Hname : assoc "name" fields = Some (PyStr returned))
    (Hlookup :
       svc (tr ++ [(client self, GET (upload_link_url self));
                   (client self,
                    POST (link ++ "?ret-json=1")
                         (upload_files fileobj filename filepath))])%list
           (client self,
            GET (file_detail_url self
                 ++ file_query (posixpath_join ("/" ++ filepath) returned)))
       = Err (ClientHttpError 404)) :
  run svc (upload_file self fileobj filename filepath) tr
  = (Err (DoesNotExist "The requested file does not exist"),
     (tr ++ [(client self, GET (upload_link_url self));
             (client self,
              POST (link ++ "?ret-json=1")
                   (upload_files fileobj filename filepath));
             (client self,
              GET (file_detail_url self
                   ++ file_query (posixpath_join ("/" ++ filepath) returned)))])%list).
Proof.
  rewrite (run_upload_file svc tr self fileobj filename filepath resp1 resp2 link
             _ Hobj Hlink Hmatch Hpost Hjson).
  cbn [lift bind getitem_0 getitem_str]. rewrite Hname. cbn [lift bind].
  destruct (upload_path_is_rooted_aux filepath returned) as [Hroot _].
  unfold get_file, raise_does_not_exist, client_get.
  rewrite Hroot. cbv zeta. cbn [bind try_except].
  rewrite run_call, Hlookup. cbn [lift bind try_except Z.eqb Pos.eqb].
  rewrite <- app_assoc. reflexivity.
Qed.

(** ** [get_share_link_details] and [get_element_by_share_link] *)

Lemma run_get_element (svc : Service) (tr : list Event) (self : Repo)
    (share_link : string) :
  validators_url share_link = true ->
  (5 <= length (split "/" share_link))%nat ->
  run svc (get_element_by_share_link self share_link) tr
  = run svc (resp <- lift (svc tr (client self,
                                   GET (share_link_url
                                          (nth 4 (split "/" share_link) EmptyString)))) ;;
             details <- lift (json resp) ;;
             resolve_details self details)
        (tr ++ [(client self,
                 GET (share_link_url (nth 4 (split "/" share_link) EmptyString)))])%list.
Proof.
  intros Hurl Hlen. apply Nat.leb_le in Hlen.
  unfold get_element_by_share_link. rewrite Hurl, Hlen. cbn [andb]. cbv zeta.
  unfold get_share_link_details, client_get. cbv zeta. cbn [bind].
  rewrite run_call.
  destruct (svc tr (client self,
                    GET (share_link_url (nth 4 (split "/" share_link) EmptyString))))
    as [resp | e]; cbn [lift bind]; [| reflexivity].
  destruct (json resp) as [details | e]; reflexivity.
Qed.

(** X19. The details lookup is not under the not-found decorator: on an
    accepted link, whatever exception the client raises there, a 404
    included, leaves [get_element_by_share_link] unchanged, and neither
    [get_dir] nor [get_file] is reached. *)
Theorem share_link_details_error_propagates (svc : Service) (tr : list Event)
    (self : Repo) (share_link : string) (e : PyExn)
    (Hurl : validators_url share_link = true)
    (Hlen : (5 <= length (split "/" share_link))%nat)
    (Hsvc : svc tr (client self,
                    GET (share_link_url (nth 4 (split "/" share_link) EmptyString)))
            = Err e) :
  run svc (get_element_by_share_link self share_link) tr
  = (Err e,
     (tr ++ [(client self,
              GET (share_link_url (nth 4 (split "/" share_link) EmptyString)))])%list)
  /\ run svc (get_share_link_details self (nth 4 (split "/" share_link) EmptyString)) tr
     = (Err e,
        (tr ++ [(client self,
                 GET (share_link_url (nth 4 (split "/" share_link) EmptyString)))])%list).
Proof.
  split.
  - rewrite (run_get_element svc tr self share_link Hurl Hlen), Hsvc. reflexivity.
  - unfold get_share_link_details, client_get. cbv zeta. cbn [bind].
    rewrite run_call, Hsvc. reflexivity.
Qed.

(** X20. Details that are not an object make the call raise
    [AttributeError] for [get]; details without [path] make it raise
    [AttributeError] for [startswith], whatever [is_dir] says. Only the
    details request has been made. *)
Theorem share_link_details_without_path (svc : Service) (tr : list Event)
    (self : Repo) (share_link : string) (resp : Response) (body : PyVal)
    (Hurl : validators_url share_link = true)
    (Hlen : (5 <= length (split "/" share_link))%nat)
    (Hsvc : svc tr (client self,
                    GET (share_link_url (nth 4 (split "/" share_link) EmptyString)))
            = Ok resp)
    (Hjson : json resp = Ok body) :
  let done := (tr ++ [(client self,
                       GET (share_link_url
                              (nth 4 (split "/" share_link) EmptyString)))])%list in
  ((forall d, body <> PyDict d) ->
   run svc (get_element_by_share_link self share_link) tr
   = (Err (AttributeError "get"), done))
  /\ (forall d, body = PyDict d -> assoc "path" d = None ->
        run svc (get_element_by_share_link self share_link) tr
        = (Err (AttributeError "startswith"), done)).
Proof.
  intros done. subst done.
  rewrite (run_get_element svc tr self share_link Hurl Hlen), Hsvc.
  cbn [lift bind]. rewrite Hjson. cbn [lift bind]. unfold resolve_details.
  split.
  - intros Hnot. destruct body; try reflexivity.
    exfalso. exact (Hnot d eq_refl).
  - intros d -> Hpath. cbn [py_get]. rewrite Hpath. cbn [lift bind].
    destruct (assoc "is_dir" d) as [v |]; cbn [lift bind];
      [destruct (truthy v) |]; reflexivity.
Qed.

(** X21. The kind of the target is the truth value of [is_dir]: details
    without [is_dir], or with null, false, 0, an empty string, list or
    object there, resolve through [get_file]; any other value resolves
    through [get_dir]. *)
Theorem share_link_is_dir_truthiness (svc : Service) (tr : list Event)
    (self : Repo) (share_link : string) (resp : Response)
    (details : list (string * PyVal)) (path : string)
    (Hurl : validators_url share_link = true)
    (Hlen : (5 <= length (split "/" share_link))%nat)
    (Hsvc : svc tr (client self,
                    GET (share_link_url (nth 4 (split "/" share_link) EmptyString)))
            = Ok resp)
    (Hjson : json resp = Ok (PyDict details))
    (Hpath : assoc "path" details = Some (PyStr path)) :
  let done := (tr ++ [(client self,
                       GET (share_link_url
                              (nth 4 (split "/" share_link) EmptyString)))])%list in
  let flag := match assoc "is_dir" details with
              | Some v => v
              | None => PyNone
              end in
  run svc (get_element_by_share_link self share_link) tr
  = if truthy flag
    then map_outcome EDir (run svc (get_dir self path) done)
    else map_outcome EFile (run svc (get_file self path) done).
Proof.
  intros done flag. subst done flag.
  rewrite (run_get_element svc tr self share_link Hurl Hlen), Hsvc.
  cbn [lift bind]. rewrite Hjson. cbn [lift bind]. unfold resolve_details.
  cbn [py_get]. rewrite Hpath. cbn [lift bind].
  assert (Hflag : lift (match assoc "is_dir" details with
                        | Some x => Ok x
                        | None => Ok PyNone
                        end)
                  = Ret (match assoc "is_dir" details with
                         | Some v => v
                         | None => PyNone
                         end)).
  { destruct (assoc "is_dir" details); reflexivity. }
  rewrite Hflag. cbn [bind].
  destruct (truthy _); cbn [get_dir_dyn get_file_dyn];
    rewrite run_bind; unfold map_outcome;
    match goal with
    | |- context [run svc ?p ?t] => destruct (run svc p t) as [[x | e] tr']
    end; reflexivity.
Qed.

Lemma split_length (sep : ascii) (s : string) :
  length (split sep s) = S (count_char sep s).
Proof.
  induction s as [| c s IH]; simpl.
  - reflexivity.
  - destruct (Ascii.eqb c sep); simpl.
    + rewrite IH. reflexivity.
    + destruct (split sep s) as [| h t]; simpl in *; [discriminate IH | exact IH].
Qed.

(** X22. [get_element_by_share_link] refuses a link exactly when
    [validators.url] does not accept it or it has fewer than four slashes;
    every other link leads to a request. *)
Theorem share_link_refused_iff (self : Repo) (share_link : string) :
  (get_element_by_share_link self share_link = Raise (ValueError "Invalid share link")
   <-> (validators_url share_link = false \/ (count_char "/" share_link < 4)%nat))
  /\ (validators_url share_link = true ->
      (4 <= count_char "/" share_link)%nat ->
      first_request (get_element_by_share_link self share_link)
      = Some (client self,
              GET (share_link_url (nth 4 (split "/" share_link) EmptyString)))).
Proof.
  split.
  - unfold get_element_by_share_link. rewrite split_length.
    destruct (validators_url share_link); cbn [andb].
    + destruct (Nat.leb_spec 5 (S (count_char "/" share_link))) as [Hle | Hlt].
      * cbv zeta. unfold get_share_link_details, client_get. cbv zeta. cbn [bind].
        split; [discriminate |].
        intros [H | H]; [discriminate H | lia].
      * split; [| reflexivity]. intros _. right. lia.
    + split; [| reflexivity]. intros _. left. reflexivity.
  - intros Hurl Hcount.
    assert (Hlen : (5 <=? length (split "/" share_link))%nat = true).
    { apply Nat.leb_le. rewrite split_length. lia. }
    unfold get_element_by_share_link. rewrite Hurl, Hlen. reflexivity.
Qed.

Lemma split_no_sep (sep : ascii) (s : string) :
  contains_char sep s = false -> split sep s = [s].
Proof.
  induction s as [| c s IH]; simpl; intros Hno.
  - reflexivity.
  - apply orb_false_elim in Hno. destruct Hno as [Hc Hs].
    rewrite Hc, (IH Hs). reflexivity.
Qed.

(** X23. The token is what stands between the fourth and the fifth slash,
    or after the fourth when there is no fifth; the segments before it (the
    scheme, the host, the kind of link) and whatever follows it are not
    looked at. The first request of an accepted link is the details lookup
    for that token. *)
Theorem share_link_token_position (self : Repo) (s0 s1 s2 s3 token rest : string)
    (H0 : contains_char "/" s0 = false) (H1 : contains_char "/" s1 = false)
    (H2 : contains_char "/" s2 = false) (H3 : contains_char "/" s3 = false)
    (Htoken : contains_char "/" token = false) :
  (validators_url (s0 ++ "/" ++ s1 ++ "/" ++ s2 ++ "/" ++ s3 ++ "/" ++ token) = true ->
   first_request
     (get_element_by_share_link self
        (s0 ++ "/" ++ s1 ++ "/" ++ s2 ++ "/" ++ s3 ++ "/" ++ token))
   = Some (client self, GET (share_link_url token)))
  /\ (validators_url
        (s0 ++ "/" ++ s1 ++ "/" ++ s2 ++ "/" ++ s3 ++ "/" ++ token ++ "/" ++ rest)
      = true ->
      first_request
        (get_element_by_share_link self
           (s0 ++ "/" ++ s1 ++ "/" ++ s2 ++ "/" ++ s3 ++ "/" ++ token ++ "/" ++ rest))
      = Some (client self, GET (share_link_url token))).
Proof.
  split; intros Hurl; unfold get_element_by_share_link; rewrite Hurl;
    cbn [append];
    rewrite (split_segment "/" s0) by assumption;
    rewrite (split_segment "/" s1) by assumption;
    rewrite (split_segment "/" s2) by assumption;
    rewrite (split_segment "/" s3) by assumption.
  - rewrite (split_no_sep "/" token) by assumption. reflexivity.
  - rewrite (split_segment "/" token) by assumption.
    destruct (split "/" rest); reflexivity.
Qed.

(** ** The query string *)

Lemma all_chars_app (p : ascii -> bool) (a b : string) :
  all_chars p (a ++ b) = all_chars p a && all_chars p b.
Proof.
  induction a as [| c a IH]; simpl.
  - reflexivity.
  - rewrite IH. apply andb_assoc.
Qed.

Lemma quote_byte_alphabet (c : ascii) : all_chars query_char (quote_byte c) = true.
Proof.
  destruct c as [[] [] [] [] [] [] [] []]; vm_compute; reflexivity.
Qed.

Lemma quote_plus_alphabet (s : string) : all_chars query_char (quote_plus s) = true.
Proof.
  induction s as [| c s IH]; simpl.
  - reflexivity.
  - rewrite all_chars_app, quote_byte_alphabet, IH. reflexivity.
Qed.

Lemma all_chars_contains (p : ascii -> bool) (s : string) (x : ascii) :
  all_chars p s = true -> contains_char x s = true -> p x = true.
Proof.
  induction s as [| c s IH]; simpl; intros Hall Hin.
  - discriminate Hin.
  - apply andb_true_iff in Hall. destruct Hall as [Hc Hs].
    apply orb_true_iff in Hin. destruct Hin as [Hin | Hin].
    + apply Ascii.eqb_eq in Hin. subst c. exact Hc.
    + exact (IH Hs Hin).
Qed.

(** X24. The query of [get_file] is ?p= followed by the encoded path, and
    the encoded path is made of letters, digits, the four marks _ . - ~,
    the percent sign and the plus sign only: no slash, question mark,
    ampersand, equals sign, hash or space of the path reaches the URL
    unencoded. *)
Theorem file_query_alphabet (path : string) :
  file_query path = "?p=" ++ quote_plus path
  /\ (forall x, contains_char x (quote_plus path) = true ->
        always_safe x = true \/ x = "%"%char \/ x = "+"%char)
  /\ (forall x, In x ["/"; "?"; "&"; "="; "#"; " "]%char ->
        contains_char x (quote_plus path) = false).
Proof.
  assert (Hmain : forall x, contains_char x (quote_plus path) = true ->
                            query_char x = true).
  { intros x. apply all_chars_contains. apply quote_plus_alphabet. }
  split; [reflexivity | split].
  - intros x Hx. apply Hmain in Hx. unfold query_char in Hx.
    apply orb_true_iff in Hx. destruct Hx as [Hx | Hx].
    + apply orb_true_iff in Hx. destruct Hx as [Hx | Hx].
      * left. exact Hx.
      * right. left. apply Ascii.eqb_eq. exact Hx.
    + right. right. apply Ascii.eqb_eq. exact Hx.
  - intros x Hin.
    destruct (contains_char x (quote_plus path)) eqn:Hc; [| reflexivity].
    apply Hmain in Hc.
    simpl in Hin.
    destruct Hin as [<- | [<- | [<- | [<- | [<- | [<- | []]]]]]];
      vm_compute in Hc; discriminate Hc.
Qed.

Lemma unquote_quote_byte (c : ascii) (rest : string) :
  unquote_plus (quote_byte c ++ rest) = String c (unquote_plus rest).
Proof.
  destruct c as [[] [] [] [] [] [] [] []]; reflexivity.
Qed.

Lemma unquote_quote_plus (s : string) : unquote_plus (quote_plus s) = s.
Proof.
  induction s as [| c s IH]; simpl.
  - reflexivity.
  - rewrite unquote_quote_byte, IH. reflexivity.
Qed.

Lemma quote_plus_injective (p1 p2 : string) :
  quote_plus p1 = quote_plus p2 -> p1 = p2.
Proof.
  intros H. rewrite <- (unquote_quote_plus p1), <- (unquote_quote_plus p2), H.
  reflexivity.
Qed.

(** X25. The encoding loses nothing: two paths with the same [get_file]
    query, or the same [get_dir] query, are the same path, so the requests
    of two different paths never coincide. *)
Theorem path_queries_injective (p1 p2 : string)
    (Hsame : file_query p1 = file_query p2 \/ dir_query p1 = dir_query p2) :
  p1 = p2.
Proof.
  assert (Hfile : file_query p1 = file_query p2 -> p1 = p2).
  { unfold file_query, urlencode. cbn [map fst snd String.concat].
    intros H. apply quote_plus_injective.
    cbn in H. injection H as H. exact H. }
  destruct Hsame as [H | H]; [exact (Hfile H) |].
  unfold dir_query in H.
  destruct (String.eqb_spec p1 "/") as [E1 | Hn1];
    destruct (String.eqb_spec p2 "/") as [E2 | Hn2]; cbn [negb] in H.
  - congruence.
  - discriminate H.
  - discriminate H.
  - apply Hfile. exact H.
Qed.

End Repository.

(** * Concrete instances

    A repository handle, stand-ins for what the module takes from outside,
    and three services, on which the statements above are exercised. *)

Definition demo_repr (v : PyVal) : string :=
  match v with
  | PyNone => "None"
  | PyBool true => "True"
  | PyBool false => "False"
  | _ => "?"
  end.

(** A stand-in for [validators.url] that keeps the two rules of it the
    instances below depend on: the scheme is http or https and the host name
    has a dot (a top-level domain). Like the library it refuses
    https://host/d/tok/ and accepts https://cloud.example.com/d/tok/. *)
Definition demo_validator (s : string) : bool :=
  (startswith "https://" s || startswith "http://" s)
  && contains_char "." (nth 2 (split "/" s) EmptyString).

Definition demo_load_entries (d : SeafDir PyVal) (entries : PyVal)
  : Prog (SeafDir PyVal) :=
  Ret (mkSeafDir PyVal (dir_repo _ d) (dir_path _ d) (dir_id _ d) (Some entries)).

Definition demo_repo : Repo :=
  mkRepo 0%nat (PyStr "r1") (PyStr "Library") (PyBool false)
         (PyStr "alice@example.com") (PyStr "rw").

Definition demo_repo_json : list (string * PyVal) :=
  [("id", PyStr "r1"); ("name", PyStr "Library"); ("encrypted", PyBool false);
   ("permission", PyStr "rw"); ("owner", PyStr "alice@example.com")].

Definition no_headers : string -> option string := fun _ => None.

Definition not_found_service : Service :=
  fun _ _ => Err (ClientHttpError 404).

Definition quoted (s : string) : string :=
  String dquote (s ++ String dquote EmptyString).

Definition upload_link_response : Response :=
  mkResponse 200 no_headers (quoted "https://up.example/upload-api/abc")
    (Ok (PyStr "https://up.example/upload-api/abc")).

Definition upload_response : Response :=
  mkResponse 200 no_headers ("[{" ++ quoted "name" ++ ": " ++ quoted "a.txt" ++ "}]")
    (Ok (PyList [PyDict [("name", PyStr "a.txt")]])).

Definition file_detail_response : Response :=
  mkResponse 200 no_headers ("{" ++ quoted "id" ++ ": " ++ quoted "f0" ++ ", " ++ quoted "size" ++ ": 3}")
    (Ok (PyDict [("id", PyStr "f0"); ("size", PyInt 3)])).

Definition upload_service : Service :=
  fun _ ev =>
    match snd ev with
    | GET url =>
        if String.eqb url "/api2/repos/r1/upload-link/" then Ok upload_link_response
        else if String.eqb url "/api2/repos/r1/file/detail/?p=%2Fdocs%2Fa.txt"
             then Ok file_detail_response
             else Err (ClientHttpError 404)
    | POST _ _ => Ok upload_response
    | DELETE _ => Err (ClientHttpError 403)
    end.

Definition share_details_response : Response :=
  mkResponse 200 no_headers ("{" ++ quoted "path" ++ ": " ++ quoted "/x" ++ ", " ++ quoted "is_dir" ++ ": true}")
    (Ok (PyDict [("path", PyStr "/x"); ("is_dir", PyBool true)])).

Definition dir_listing_response : Response :=
  mkResponse 200
    (fun h => if String.eqb h "oid" then Some "d0" else None)
    "[]" (Ok (PyList [])).

Definition share_service : Service :=
  fun _ ev =>
    match snd ev with
    | GET url =>
        if String.eqb url "/api/v2.1/share-links/tok/" then Ok share_details_response
        else if String.eqb url "/api2/repos/r1/dir/?p=%2Fx" then Ok dir_listing_response
        else Err (ClientHttpError 404)
    | _ => Err (ClientHttpError 405)
    end.

(** The upload of a byte string posts the byte string itself. *)
Example upload_bytes_posts_raw_bytes :
  run upload_service
      (upload_file demo_repr demo_repo (FBytes ["a"%byte; "b"%byte; "c"%byte])
                   "a.txt" "docs") []
  = (Ok (mkSeafFile demo_repo "/docs/a.txt" (PyStr "f0") (PyInt 3)),
     [(0%nat, GET "/api2/repos/r1/upload-link/");
      (0%nat, POST "https://up.example/upload-api/abc?ret-json=1"
                (mkUploadFiles ("a.txt", FBytes ["a"%byte; "b"%byte; "c"%byte])
                               "/" "docs"));
      (0%nat, GET "/api2/repos/r1/file/detail/?p=%2Fdocs%2Fa.txt")]).
Proof. reflexivity. Qed.

(** The upload of a text string fails before any request. *)
Example upload_text_raises :
  run upload_service (upload_file demo_repr demo_repo (FText "abc") "a.txt" "docs") []
  = (Err TypeError, []).
Proof. reflexivity. Qed.

Lemma get_file_get_dir_reject_unrooted_path_witness :
  get_file demo_repr demo_repo "docs/a.txt" = Raise AssertionError
  /\ get_dir demo_repr PyVal demo_load_entries demo_repo "docs/a.txt"
     = Raise AssertionError.
Proof.
  pose proof (get_file_get_dir_reject_unrooted_path
                demo_repr PyVal demo_load_entries demo_repo "docs/a.txt" eq_refl)
    as (Hf & Hd & _).
  split; assumption.
Defined.

Lemma from_json_required_fields_witness :
  exists r, from_json 0%nat (PyDict demo_repo_json) = Ret r
            /\ client r = 0%nat /\ id r = PyStr "r1" /\ name r = PyStr "Library"
            /\ encrypted r = PyBool false /\ perm r = PyStr "rw"
            /\ owner r = PyStr "alice@example.com".
Proof.
  exact (proj2 (proj2 (proj2 (from_json_required_fields 0%nat demo_repo_json)))
               _ _ _ _ _ eq_refl eq_refl eq_refl eq_refl eq_refl).
Defined.

Lemma get_element_by_share_link_rejects_witness :
  get_element_by_share_link demo_repr demo_validator PyVal demo_load_entries
    demo_repo "https://host/d"
  = Raise (ValueError "Invalid share link").
Proof.
  apply (get_element_by_share_link_rejects demo_repr demo_validator PyVal
           demo_load_entries demo_repo "https://host/d").
  right. simpl. lia.
Defined.

Lemma not_found_messages_witness :
  run not_found_service (get_file demo_repr demo_repo "/missing.txt") []
  = (Err (DoesNotExist "The requested file does not exist"),
     [(0%nat, GET "/api2/repos/r1/file/detail/?p=%2Fmissing.txt")])
  /\ run not_found_service
         (get_dir demo_repr PyVal demo_load_entries demo_repo "/missing") []
     = (Err (DoesNotExist "The requested dir does not exist"),
        [(0%nat, GET "/api2/repos/r1/dir/?p=%2Fmissing")]).
Proof.
  pose proof (not_found_messages demo_repr PyVal demo_load_entries
                not_found_service [] demo_repo "/missing.txt" eq_refl)
    as (Hf & _ & _).
  pose proof (not_found_messages demo_repr PyVal demo_load_entries
                not_found_service [] demo_repo "/missing" eq_refl)
    as (_ & Hd & _).
  split; [exact (Hf eq_refl) | exact (Hd eq_refl)].
Defined.


Lemma share_link_dispatch_witness :
  run share_service
      (get_element_by_share_link demo_repr demo_validator PyVal demo_load_entries
         demo_repo "https://cloud.example.com/d/tok/") []
  = map_outcome (EDir PyVal)
      (run share_service
           (get_dir demo_repr PyVal demo_load_entries demo_repo "/x")
           [(0%nat, GET "/api/v2.1/share-links/tok/")]).
Proof.
  exact (proj2 (share_link_dispatch demo_repr demo_validator PyVal demo_load_entries
                  share_service [] demo_repo "cloud.example.com" "tok"
                  share_details_response
                  [("path", PyStr "/x"); ("is_dir", PyBool true)] "/x" true
                  eq_refl eq_refl eq_refl eq_refl eq_refl eq_refl eq_refl)).
Defined.

Lemma get_dir_query_string_witness :
  first_request (get_dir demo_repr PyVal demo_load_entries demo_repo "/a b")
  = Some (0%nat, GET "/api2/repos/r1/dir/?p=%2Fa+b").
Proof.
  apply (proj1 (proj2 (get_dir_query_string demo_repr PyVal demo_load_entries
                         demo_repo)) "/a b").
  - reflexivity.
  - discriminate.
Defined.

(** ** Instances for the further properties *)

(** A service that answers the n-th request of the run with the n-th entry
    of a script. *)
Definition scripted_service (answers : list (Result Response)) : Service :=
  fun tr _ => nth (length tr) answers (Err (OtherError "no answer")).

Definition json_response (body : PyVal) : Response :=
  mkResponse 200 no_headers EmptyString (Ok body).

Definition unnamed_repo : Repo :=
  mkRepo 0%nat PyNone PyNone (PyBool false) PyNone (PyStr EmptyString).

Lemma is_readonly_iff_no_write_marker_witness :
  is_readonly demo_repo = Ok false /\ is_readonly unnamed_repo = Ok true.
Proof.
  split.
  - apply (proj1 (is_readonly_iff_no_write_marker demo_repo "rw" eq_refl)).
    exists "r", EmptyString. reflexivity.
  - apply (proj2 (proj2 (is_readonly_iff_no_write_marker unnamed_repo
                           EmptyString eq_refl)) eq_refl).
Defined.

Lemma from_json_keeps_untyped_permission_witness :
  exists r,
    from_json 0%nat
      (PyDict [("id", PyStr "r1"); ("name", PyStr "Library");
               ("encrypted", PyBool false); ("permission", PyNone);
               ("owner", PyStr "alice@example.com")]) = Ret r
    /\ perm r = PyNone /\ is_readonly r = Err TypeError.
Proof.
  apply (from_json_keeps_untyped_permission 0%nat
           [("id", PyStr "r1"); ("name", PyStr "Library");
            ("encrypted", PyBool false); ("permission", PyNone);
            ("owner", PyStr "alice@example.com")]
           (PyStr "r1") (PyStr "Library")
           (PyBool false) (PyStr "alice@example.com") PyNone
           eq_refl eq_refl eq_refl eq_refl eq_refl).
  left. reflexivity.
Defined.

Lemma from_json_first_missing_field_witness :
  from_json 0%nat (PyDict [("id", PyStr "r1"); ("permission", PyStr "rw")])
  = Raise (KeyError (PyStr "name")).
Proof.
  apply (from_json_first_missing_field 0%nat
           [("id", PyStr "r1"); ("permission", PyStr "rw")]
           ["id"] ["encrypted"; "permission"; "owner"]
           "name" eq_refl).
  - intros k' [<- | []]. discriminate.
  - reflexivity.
Defined.

Lemma from_json_non_object_witness :
  from_json 0%nat (PyList [PyDict demo_repo_json]) = Raise TypeError.
Proof.
  apply (from_json_non_object 0%nat (PyList [PyDict demo_repo_json])).
  intros d. discriminate.
Defined.

Lemma get_file_success_witness :
  run upload_service (get_file demo_repr demo_repo "/docs/a.txt") []
  = (Ok (mkSeafFile demo_repo "/docs/a.txt" (PyStr "f0") (PyInt 3)),
     [(0%nat, GET "/api2/repos/r1/file/detail/?p=%2Fdocs%2Fa.txt")]).
Proof.
  exact (get_file_success demo_repr upload_service [] demo_repo "/docs/a.txt"
           file_detail_response [("id", PyStr "f0"); ("size", PyInt 3)]
           (PyStr "f0") (PyInt 3) eq_refl eq_refl eq_refl eq_refl eq_refl).
Defined.

Lemma get_file_malformed_answer_witness :
  run (scripted_service [Ok (json_response (PyDict [("size", PyInt 3)]))])
      (get_file demo_repr demo_repo "/a.txt") []
  = (Err (KeyError (PyStr "id")),
     [(0%nat, GET "/api2/repos/r1/file/detail/?p=%2Fa.txt")]).
Proof.
  exact (proj1 (get_file_malformed_answer demo_repr
                  (scripted_service [Ok (json_response (PyDict [("size", PyInt 3)]))])
                  [] demo_repo "/a.txt" _ _ eq_refl eq_refl eq_refl)
               [("size", PyInt 3)] eq_refl eq_refl).
Defined.

Lemma get_file_propagates_other_errors_witness :
  run (scripted_service [Err (ClientHttpError 500)])
      (get_file demo_repr demo_repo "/a.txt") []
  = (Err (ClientHttpError 500),
     [(0%nat, GET "/api2/repos/r1/file/detail/?p=%2Fa.txt")]).
Proof.
  apply (get_file_propagates_other_errors demo_repr
           (scripted_service [Err (ClientHttpError 500)]) [] demo_repo "/a.txt"
           (ClientHttpError 500) eq_refl eq_refl).
  discriminate.
Defined.

Lemma get_file_exactly_one_request_witness :
  snd (run upload_service (get_file demo_repr demo_repo "/other.txt") [])
  = [(0%nat, GET "/api2/repos/r1/file/detail/?p=%2Fother.txt")].
Proof.
  exact (get_file_exactly_one_request demo_repr upload_service [] demo_repo
           "/other.txt" eq_refl).
Defined.

Lemma get_dir_missing_oid_witness :
  run (scripted_service [Ok (json_response (PyList []))])
      (get_dir demo_repr PyVal demo_load_entries demo_repo "/") []
  = (Err (KeyError (PyStr "oid")), [(0%nat, GET "/api2/repos/r1/dir/")]).
Proof.
  exact (get_dir_missing_oid demo_repr PyVal demo_load_entries
           (scripted_service [Ok (json_response (PyList []))]) [] demo_repo "/"
           (json_response (PyList [])) eq_refl eq_refl eq_refl).
Defined.

Lemma get_dir_loads_entries_witness :
  run share_service (get_dir demo_repr PyVal demo_load_entries demo_repo "/x") []
  = (Ok (mkSeafDir PyVal demo_repo "/x" "d0" (Some (PyList []))),
     [(0%nat, GET "/api2/repos/r1/dir/?p=%2Fx")]).
Proof.
  exact (get_dir_loads_entries demo_repr PyVal demo_load_entries share_service []
           demo_repo "/x" dir_listing_response "d0" (PyList [])
           eq_refl eq_refl eq_refl eq_refl).
Defined.

Lemma delete_outcome_witness :
  run not_found_service (delete demo_repo) []
  = (Err (ClientHttpError 404), [(0%nat, DELETE "/api2/repos/r1")]).
Proof.
  exact (delete_outcome not_found_service [] demo_repo "r1" eq_refl).
Defined.

Lemma delete_non_string_id_witness :
  delete unnamed_repo = Raise TypeError
  /\ first_request (get_file demo_repr unnamed_repo "/")
     = Some (0%nat, GET "/api2/repos/None/file/detail/?p=%2F").
Proof.
  apply (delete_non_string_id demo_repr unnamed_repo).
  intros s. discriminate.
Defined.

Lemma get_upload_link_unquotes_witness :
  run upload_service (_get_upload_link demo_repr demo_repo) []
  = (Ok "https://up.example/upload-api/abc",
     [(0%nat, GET "/api2/repos/r1/upload-link/")]).
Proof.
  exact (get_upload_link_unquotes demo_repr upload_service [] demo_repo
           upload_link_response "https://up.example/upload-api/abc" EmptyString
           eq_refl eq_refl eq_refl eq_refl).
Defined.

Lemma upload_file_unquoted_link_witness :
  run (scripted_service
         [Ok (mkResponse 200 no_headers "https://up.example/upload-api/abc"
                         (Err (ValueError "not JSON")))])
      (upload_file demo_repr demo_repo (FStream (OpenFile 3)) "a.txt" "docs") []
  = (Err (AttributeError "group"), [(0%nat, GET "/api2/repos/r1/upload-link/")]).
Proof.
  exact (upload_file_unquoted_link demo_repr
           (scripted_service
              [Ok (mkResponse 200 no_headers "https://up.example/upload-api/abc"
                              (Err (ValueError "not JSON")))])
           [] demo_repo (FStream (OpenFile 3)) "a.txt" "docs" _
           eq_refl eq_refl eq_refl).
Defined.

Definition renamed_upload_response : Response :=
  json_response (PyList [PyDict [("name", PyStr "a (1).txt")]]).

Lemma upload_file_resolves_returned_name_witness :
  run (scripted_service [Ok upload_link_response; Ok renamed_upload_response;
                         Ok file_detail_response])
      (upload_file demo_repr demo_repo (FBytes ["a"%byte]) "a.txt" "docs/") []
  = run (scripted_service [Ok upload_link_response; Ok renamed_upload_response;
                           Ok file_detail_response])
        (get_file demo_repr demo_repo "/docs/a (1).txt")
        [(0%nat, GET "/api2/repos/r1/upload-link/");
         (0%nat, POST "https://up.example/upload-api/abc?ret-json=1"
                   (mkUploadFiles ("a.txt", FBytes ["a"%byte]) "/" "docs/"))].
Proof.
  exact (upload_file_resolves_returned_name demo_repr
           (scripted_service [Ok upload_link_response; Ok renamed_upload_response;
                              Ok file_detail_response])
           [] demo_repo (FBytes ["a"%byte]) "a.txt" "docs/"
           upload_link_response renamed_upload_response
           "https://up.example/upload-api/abc" [("name", PyStr "a (1).txt")] []
           "a (1).txt" eq_refl eq_refl eq_refl eq_refl eq_refl eq_refl).
Defined.

Lemma upload_path_is_rooted_witness :
  posixpath_join ("/" ++ "docs") "/elsewhere/a.txt" = "/elsewhere/a.txt".
Proof.
  exact (proj2 (upload_path_is_rooted "docs" "/elsewhere/a.txt") eq_refl).
Defined.

Lemma upload_file_malformed_answer_witness :
  run (scripted_service [Ok upload_link_response; Ok (json_response (PyList []))])
      (upload_file demo_repr demo_repo (FStream (OpenFile 3)) "a.txt" "docs") []
  = (Err IndexError,
     [(0%nat, GET "/api2/repos/r1/upload-link/");
      (0%nat, POST "https://up.example/upload-api/abc?ret-json=1"
                (mkUploadFiles ("a.txt", FStream (OpenFile 3)) "/" "docs"))]).
Proof.
  exact (proj1 (upload_file_malformed_answer demo_repr
                  (scripted_service [Ok upload_link_response;
                                     Ok (json_response (PyList []))])
                  [] demo_repo (FStream (OpenFile 3)) "a.txt" "docs"
                  upload_link_response (json_response (PyList []))
                  "https://up.example/upload-api/abc" (PyList [])
                  eq_refl eq_refl eq_refl eq_refl eq_refl)
               eq_refl).
Defined.

Lemma upload_file_not_found_after_upload_witness :
  run (scripted_service [Ok upload_link_response; Ok upload_response;
                         Err (ClientHttpError 404)])
      (upload_file demo_repr demo_repo (FStream (OpenFile 3)) "a.txt" "docs") []
  = (Err (DoesNotExist "The requested file does not exist"),
     [(0%nat, GET "/api2/repos/r1/upload-link/");
      (0%nat, POST "https://up.example/upload-api/abc?ret-json=1"
                (mkUploadFiles ("a.txt", FStream (OpenFile 3)) "/" "docs"));
      (0%nat, GET "/api2/repos/r1/file/detail/?p=%2Fdocs%2Fa.txt")]).
Proof.
  exact (upload_file_not_found_after_upload demo_repr
           (scripted_service [Ok upload_link_response; Ok upload_response;
                              Err (ClientHttpError 404)])
           [] demo_repo (FStream (OpenFile 3)) "a.txt" "docs"
           upload_link_response upload_response
           "https://up.example/upload-api/abc" [("name", PyStr "a.txt")] [] "a.txt"
           eq_refl eq_refl eq_refl eq_refl eq_refl eq_refl eq_refl).
Defined.

Lemma share_link_details_error_propagates_witness :
  run not_found_service
      (get_element_by_share_link demo_repr demo_validator PyVal demo_load_entries
         demo_repo "https://cloud.example.com/d/tok/") []
  = (Err (ClientHttpError 404), [(0%nat, GET "/api/v2.1/share-links/tok/")]).
Proof.
  refine (proj1 (share_link_details_error_propagates demo_repr demo_validator PyVal
                   demo_load_entries not_found_service [] demo_repo
                   "https://cloud.example.com/d/tok/" (ClientHttpError 404)
                   eq_refl _ eq_refl)).
  simpl. lia.
Defined.

Lemma share_link_details_without_path_witness :
  run (scripted_service [Ok (json_response (PyDict [("is_dir", PyBool true)]))])
      (get_element_by_share_link demo_repr demo_validator PyVal demo_load_entries
         demo_repo "https://cloud.example.com/d/tok/") []
  = (Err (AttributeError "startswith"),
     [(0%nat, GET "/api/v2.1/share-links/tok/")]).
Proof.
  refine (proj2 (share_link_details_without_path demo_repr demo_validator PyVal
                   demo_load_entries
                   (scripted_service
                      [Ok (json_response (PyDict [("is_dir", PyBool true)]))])
                   [] demo_repo "https://cloud.example.com/d/tok/" _ _
                   eq_refl _ eq_refl eq_refl)
                [("is_dir", PyBool true)] eq_refl eq_refl).
  simpl. lia.
Defined.

Lemma share_link_is_dir_truthiness_witness :
  run (scripted_service
         [Ok (json_response (PyDict [("path", PyStr "/docs/a.txt")]));
          Ok file_detail_response])
      (get_element_by_share_link demo_repr demo_validator PyVal demo_load_entries
         demo_repo "https://cloud.example.com/f/tok") []
  = (Ok (EFile PyVal (mkSeafFile demo_repo "/docs/a.txt" (PyStr "f0") (PyInt 3))),
     [(0%nat, GET "/api/v2.1/share-links/tok/");
      (0%nat, GET "/api2/repos/r1/file/detail/?p=%2Fdocs%2Fa.txt")]).
Proof.
  refine (share_link_is_dir_truthiness demo_repr demo_validator PyVal
            demo_load_entries
            (scripted_service
               [Ok (json_response (PyDict [("path", PyStr "/docs/a.txt")]));
                Ok file_detail_response])
            [] demo_repo "https://cloud.example.com/f/tok" _
            [("path", PyStr "/docs/a.txt")]
            "/docs/a.txt" eq_refl _ eq_refl eq_refl eq_refl).
  simpl. lia.
Defined.

Lemma share_link_refused_iff_witness :
  get_element_by_share_link demo_repr demo_validator PyVal demo_load_entries
    demo_repo "https://host/tok"
  = Raise (ValueError "Invalid share link").
Proof.
  apply (proj2 (proj1 (share_link_refused_iff demo_repr demo_validator PyVal
                         demo_load_entries demo_repo "https://host/tok"))).
  right. simpl. lia.
Defined.

Lemma share_link_token_position_witness :
  first_request
    (get_element_by_share_link demo_repr demo_validator PyVal demo_load_entries
       demo_repo "https://elsewhere.example/anything/tok/more/segments")
  = Some (0%nat, GET "/api/v2.1/share-links/tok/").
Proof.
  exact (proj2 (share_link_token_position demo_repr demo_validator PyVal
                  demo_load_entries demo_repo "https:" EmptyString
                  "elsewhere.example" "anything" "tok" "more/segments"
                  eq_refl eq_refl eq_refl eq_refl eq_refl)
               eq_refl).
Defined.

Lemma file_query_alphabet_witness :
  contains_char "/" (quote_plus "/a b/c?d=e&f#g") = false.
Proof.
  apply (proj2 (proj2 (file_query_alphabet "/a b/c?d=e&f#g")) "/"%char).
  left. reflexivity.
Defined.

Lemma path_queries_injective_witness : "/a b" = "/a b".
Proof.
  apply (path_queries_injective "/a b" "/a b").
  left. reflexivity.
Defined.

(** C8 as stated, for every link of the form https://host/d/token/, does not
    hold: a link of that form that the URL validator refuses, as it refuses
    the host name "host" without a top-level domain, raises [ValueError]
    with no request, although the service would resolve its token to the
    directory "/x", which [get_dir "/x"] returns. *)
Lemma share_link_dispatch_counterexample :
  demo_validator "https://host/d/tok/" = false
  /\ share_service [] (0%nat, GET "/api/v2.1/share-links/tok/")
     = Ok share_details_response
  /\ json share_details_response
     = Ok (PyDict [("path", PyStr "/x"); ("is_dir", PyBool true)])
  /\ run share_service
         (get_element_by_share_link demo_repr demo_validator PyVal demo_load_entries
            demo_repo "https://host/d/tok/") []
     = (Err (ValueError "Invalid share link"), [])
  /\ run share_service
         (get_dir demo_repr PyVal demo_load_entries demo_repo "/x") []
     = (Ok (mkSeafDir PyVal demo_repo "/x" "d0" (Some (PyList []))),
        [(0%nat, GET "/api2/repos/r1/dir/?p=%2Fx")])
  /\ run share_service
         (get_element_by_share_link demo_repr demo_validator PyVal demo_load_entries
            demo_repo "https://host/d/tok/") []
     <> map_outcome (EDir PyVal)
          (run share_service
               (get_dir demo_repr PyVal demo_load_entries demo_repo "/x")
               [(0%nat, GET "/api/v2.1/share-links/tok/")]).
Proof.
  repeat split.
  intros H. discriminate H.
Qed.
